(** * Two Ansible AWS modules, embedded shallowly

    - [ec2_asg_scheduled_action]: create, modify and delete Auto Scaling
      scheduled actions (lib/ansible/modules/cloud/amazon/ec2_asg_scheduled_action.py);
    - [iam_user_facts]: look IAM users up by name, group or path
      (lib/ansible/modules/cloud/amazon/iam_user_facts.py).

    Both modules are request/response adapters around a boto3 client.  The
    client is a collaborator, not part of the modules: it is a record of
    functions over an abstract remote world [W].  A run threads the world and
    the log of the calls it has issued; [module.exit_json] and
    [module.fail_json] end the process, and an exception nobody catches
    escapes as [Raise]. *)

From stdpp Require Import gmap strings list fin_maps.
From Stdlib Require Import ZArith.

Local Open Scope string_scope.

(** ** Python values the two modules handle *)

(** A field of a record the remote returns: boto3 hands back strings,
    integers and timezone-aware datetimes (compared as instants). *)
Inductive attr : Type :=
| AStr (s : string)
| AInt (n : Z)
| ATime (t : Z).

#[global] Instance attr_eq_dec : EqDecision attr.
Proof. solve_decision. Defined.

(** A flat mapping: a scheduled action, an IAM user, a response body. *)
Abbreviation record := (gmap string attr).

(** A keyword argument of a client call. *)
#[warnings="-register-all"]
Inductive arg : Type :=
| ArgNone
| ArgBool (b : bool)
| ArgInt (n : Z)
| ArgStr (s : string)
| ArgList (l : list arg).

Abbreviation kwargs := (gmap string arg).

Definition of_str (o : option string) : arg :=
  match o with Some s => ArgStr s | None => ArgNone end.

Definition of_int (o : option Z) : arg :=
  match o with Some n => ArgInt n | None => ArgNone end.

(** Python truthiness of an optional string: [None] and [''] are false. *)
Definition truthy (o : option string) : bool :=
  match o with
  | Some s => negb (String.eqb s "")
  | None => false
  end.

(** Exceptions that escape the modules. [UnboundLocalError] is a subclass of
    [NameError]. *)
Inductive exn : Type :=
| UnboundLocalError (var : string)
| TypeError (msg : string)
| IndexError (msg : string)
| KeyError (key : string)
| AttributeError (name : string)
| BotoCoreError (msg : string).

Definition is_NameError (x : exn) : bool :=
  match x with UnboundLocalError _ => true | _ => false end.

Definition is_TypeError (x : exn) : bool :=
  match x with TypeError _ => true | _ => false end.

(** ** Outcomes of a run *)

Inductive outcome (R A : Type) : Type :=
| Return (a : A)
| Exit (r : R)
| Raise (x : exn).

Arguments Return {R A} a.
Arguments Exit {R A} r.
Arguments Raise {R A} x.

(** The state a run threads: the remote world and the calls issued so far,
    oldest first. *)
Record run_state (W C : Type) : Type := RunState {
  remote : W;
  calls : list C
}.

Arguments RunState {W C} remote calls.
Arguments remote {W C} r.
Arguments calls {W C} r.

Definition start {W C : Type} (w : W) : run_state W C := RunState w [].

(** [M W C R A]: a computation over world [W], logging calls of type [C],
    that returns an [A], ends the process with an [R], or raises. *)
Definition M (W C R A : Type) : Type :=
  run_state W C -> outcome R A * run_state W C.

Definition ret {W C R A} (a : A) : M W C R A := fun s => (Return a, s).

Definition bind {W C R A B} (m : M W C R A) (k : A -> M W C R B) : M W C R B :=
  fun s =>
    match m s with
    | (Return a, s') => k a s'
    | (Exit r, s') => (Exit r, s')
    | (Raise x, s') => (Raise x, s')
    end.

Definition raise {W C R A} (x : exn) : M W C R A := fun s => (Raise x, s).

Definition exit {W C R A} (r : R) : M W C R A := fun s => (Exit r, s).

Notation "'do' x <- m ; k" := (bind m (fun x => k))
  (at level 20, x name, m at level 100, k at level 200,
   format "'[v' 'do'  x  <-  m ; '/' k ']'").

Notation "'do' ' p <- m ; k" := (bind m (fun x => match x with p => k end))
  (at level 20, p pattern, m at level 100, k at level 200,
   format "'[v' 'do'  ' p  <-  m ; '/' k ']'").

(** What a client call can do: return, raise botocore's [ClientError], or
    raise something else (a [BotoCoreError], say). *)
Inductive reply (E A : Type) : Type :=
| Ok (a : A)
| Fails (e : E)
| Throws (x : exn).

Arguments Ok {E A} a.
Arguments Fails {E A} e.
Arguments Throws {E A} x.

(** Issue a client call: log it, step the world, and hand the caller either
    the response or the exception its [except] clause catches; any other
    exception propagates. *)
Definition invoke {W C R E A} (c : C) (f : W -> reply E A * W) : M W C R (A + E) :=
  fun s =>
    let '(r, w') := f (remote s) in
    let s' := RunState w' (calls s ++ [c]) in
    match r with
    | Ok a => (Return (inl a), s')
    | Fails e => (Return (inr e), s')
    | Throws x => (Raise x, s')
    end.

(** Reading a local variable: unbound locals raise. *)
Definition local {W C R A} (name : string) (v : option A) : M W C R A :=
  match v with
  | Some a => ret a
  | None => raise (UnboundLocalError name)
  end.

(** [len(x)] where [x] may be [None]. *)
Definition len {W C R A} (x : option (list A)) : M W C R nat :=
  match x with
  | Some l => ret (length l)
  | None => raise (TypeError "object of type 'NoneType' has no len()")
  end.

(** [x[0]] where [x] may be [None]. *)
Definition item0 {W C R A} (x : option (list A)) : M W C R A :=
  match x with
  | Some (a :: _) => ret a
  | Some [] => raise (IndexError "list index out of range")
  | None => raise (TypeError "'NoneType' object is not subscriptable")
  end.

(** [d[k]] on a dict. *)
Definition getitem {W C R A} (d : gmap string A) (k : string) : M W C R A :=
  match d !! k with
  | Some a => ret a
  | None => raise (KeyError k)
  end.

(** [logs_only P m]: running [m] adds only calls that satisfy [P] to the log. *)
Definition logs_only {W C R A} (P : C -> Prop) (m : M W C R A) : Prop :=
  forall s, Forall P (calls s) -> Forall P (calls (m s).2).

(** ** ec2_asg_scheduled_action.py *)

Module ec2_asg_scheduled_action.

(** botocore's [ClientError]: the code and message the remote provided and
    the operation that failed. [str e] is botocore's rendering of it. *)
Record ClientError : Type := {
  Error_Code : string;
  Error_Message : string;
  operation_name : string
}.

Definition str (e : ClientError) : string :=
  "An error occurred (" +:+ Error_Code e +:+ ") when calling the " +:+
  operation_name e +:+ " operation: " +:+ Error_Message e.

(** [state=dict(default='present', choices=['present', 'absent'])] *)
Inductive state_choice : Type := present | absent.

(** [module.params], as [argument_spec] in [main] declares it: every option
    defaults to [None]; the sizes and the capacity are [type='int']. *)
Record module_params : Type := {
  autoscaling_group_name : option string;
  scheduled_action_name : option string;
  start_time : option string;
  end_time : option string;
  recurrence : option string;
  min_size : option Z;
  max_size : option Z;
  desired_capacity : option Z;
  state : state_choice
}.

(** What [exit_json(changed=..., results=...)] carries as [results]: the list
    of actions the describe call found, or the response of a mutation. *)
Inductive pyobj : Type :=
| Actions (l : list record)
| Response (d : record).

(** The structured result handed back to the Ansible engine. *)
Inductive json : Type :=
| exit_json (changed : bool) (results : pyobj)
| fail_json (msg : string).

(** The calls the module issues on the Auto Scaling client. *)
Inductive call : Type :=
| DescribeScheduledActions (kw : kwargs)
| PutScheduledUpdateGroupAction (kw : kwargs)
| DeleteScheduledAction (kw : kwargs).

Definition is_delete (c : call) : bool :=
  match c with DeleteScheduledAction _ => true | _ => false end.

(** The boto3 Auto Scaling client, over a remote world [W]. The describe
    response is a dict whose list-valued entries are lists of records. *)
Record Client (W : Type) : Type := {
  client_describe_scheduled_actions :
    kwargs -> W -> reply ClientError (gmap string (list record)) * W;
  client_put_scheduled_update_group_action :
    kwargs -> W -> reply ClientError record * W;
  client_delete_scheduled_action :
    kwargs -> W -> reply ClientError record * W
}.

Arguments client_describe_scheduled_actions {W} c kw w.
Arguments client_put_scheduled_update_group_action {W} c kw w.
Arguments client_delete_scheduled_action {W} c kw w.

Definition get_common_params (mp : module_params) : kwargs :=
  let params : kwargs := ∅ in
  let params := <["aws_retry" := ArgBool true]> params in
  let params := <["AutoScalingGroupName" := of_str (autoscaling_group_name mp)]> params in
  let params := <["ScheduledActionName" := of_str (scheduled_action_name mp)]> params in
  params.

(** The keyword arguments [describe_scheduled_actions] sends, once
    [ScheduledActionName] has been popped into [ScheduledActionNames]. *)
Definition describe_params (mp : module_params) : kwargs :=
  <["ScheduledActionNames" := ArgList [of_str (scheduled_action_name mp)]]>
    (delete "ScheduledActionName" (get_common_params mp)).

(** The keyword arguments [put_scheduled_update_group_action] builds. *)
Definition put_params (mp : module_params) : kwargs :=
  let params := get_common_params mp in
  let params := <["Recurrence" := of_str (recurrence mp)]> params in
  let params := <["DesiredCapacity" := of_int (desired_capacity mp)]> params in
  (* Some of these are optional *)
  let params := match min_size mp with
                | Some v => <["MinSize" := ArgInt v]> params
                | None => params
                end in
  let params := match max_size mp with
                | Some v => <["MaxSize" := ArgInt v]> params
                | None => params
                end in
  let params := match start_time mp with
                | Some v => <["StartTime" := ArgStr v]> params
                | None => params
                end in
  let params := match end_time mp with
                | Some v => <["EndTime" := ArgStr v]> params
                | None => params
                end in
  params.

(** The result of the one describe call a [describe_scheduled_actions] makes:
    a [ClientError] is swallowed and the empty dict handed back. *)
Definition described (r : reply ClientError (gmap string (list record)))
  : outcome json (gmap string (list record)) :=
  match r with
  | Ok actions => Return actions
  | Fails _ => Return ∅
  | Throws x => Raise x
  end.

Section Run.

Context {W : Type} (client : Client W).

Abbreviation run A := (M W call json A).

(** [module.fail_json(msg=...)] ends the process. *)
Definition fail {A} (msg : string) : run A := exit (fail_json msg).

Definition describe_scheduled_actions (mp : module_params)
  : run (gmap string (list record)) :=
  let actions : gmap string (list record) := ∅ in
  let params := get_common_params mp in
  do name <- getitem params "ScheduledActionName";
  let params := <["ScheduledActionNames" := ArgList [name]]>
                  (delete "ScheduledActionName" params) in
  do r <- invoke (DescribeScheduledActions params)
                 (client_describe_scheduled_actions client params);
  match r with
  | inl actions => ret actions
  | inr e => (* pass *) ret actions
  end.

Definition delete_scheduled_action (mp : module_params) : run (bool * pyobj) :=
  let changed := false in
  let actions : option pyobj := None in
  do existing <- describe_scheduled_actions mp;
  match existing !! "ScheduledUpdateGroupActions" with
  | None =>
      do actions <- local "actions" actions;
      ret (changed, actions)
  | Some actions =>
      if Nat.eqb (length actions) 0 then ret (changed, Actions actions)
      else
        let changed := true in
        let params := get_common_params mp in
        do r <- invoke (DeleteScheduledAction params)
                       (client_delete_scheduled_action client params);
        match r with
        | inl actions => ret (changed, Response actions)
        | inr e => fail (str e)
        end
  end.

Definition put_scheduled_update_group_action (mp : module_params)
  : run (bool * record) :=
  let changed := false in
  let params := put_params mp in
  do existing <- describe_scheduled_actions mp;
  let actions := existing !! "ScheduledUpdateGroupActions" in
  do r <- invoke (PutScheduledUpdateGroupAction params)
                 (client_put_scheduled_update_group_action client params);
  do status <- match r with
               | inl status => ret status
               | inr e => fail (str e)
               end;
  do n <- len actions;
  if Nat.eqb n 0 then ret (true, status)
  else
    do existing <- describe_scheduled_actions mp;
    do updated <- item0 (existing !! "ScheduledUpdateGroupActions");
    do first <- item0 actions;
    if bool_decide (first ≠ updated) then ret (true, status)
    else ret (changed, status).

(** [main], from a constructed module and a connected client on. *)
Definition main (HAS_BOTO3 : bool) (mp : module_params) : run Empty_set :=
  if negb HAS_BOTO3 then fail "json and boto3 required for this module"
  else
    match state mp with
    | present =>
        do '(changed, results) <- put_scheduled_update_group_action mp;
        exit (exit_json changed (Response results))
    | absent =>
        do '(changed, results) <- delete_scheduled_action mp;
        exit (exit_json changed results)
    end.

End Run.

(** *** Remote services to run the module against

    [memory] is an Auto Scaling service kept in a list of scheduled actions:
    describe filters by group and names, put creates or overwrites the fields
    it is given, delete removes.  [describe_denied] refuses the describe call
    and accepts mutations; [denied] refuses every call. *)
Module Remote.

Definition to_attr (a : arg) : option attr :=
  match a with
  | ArgStr s => Some (AStr s)
  | ArgInt n => Some (AInt n)
  | _ => None
  end.

Definition names_of (kw : kwargs) : list attr :=
  match kw !! "ScheduledActionNames" with
  | Some (ArgList l) => omap to_attr l
  | _ => match kw !! "ScheduledActionName" with
         | Some a => omap to_attr [a]
         | None => []
         end
  end.

Definition selects (kw : kwargs) (r : record) : bool :=
  bool_decide (r !! "AutoScalingGroupName" = kw !! "AutoScalingGroupName" ≫= to_attr)
  && existsb (fun n => bool_decide (r !! "ScheduledActionName" = Some n)) (names_of kw).

Definition not_found (op : string) : ClientError :=
  {| Error_Code := "ValidationError";
     Error_Message := "Scheduled action name not found";
     operation_name := op |}.

Definition access_denied (op : string) : ClientError :=
  {| Error_Code := "AccessDenied";
     Error_Message := "User is not authorized to perform this operation";
     operation_name := op |}.

Definition memory : Client (list record) := {|
  client_describe_scheduled_actions kw w :=
    (Ok {["ScheduledUpdateGroupActions" := List.filter (selects kw) w]}, w);
  client_put_scheduled_update_group_action kw w :=
    let fields : record := omap to_attr (delete "aws_retry" kw) in
    (Ok ∅,
     if existsb (selects kw) w
     then List.map (fun r => if selects kw r then fields ∪ r else r) w
     else (w ++ [fields])%list);
  client_delete_scheduled_action kw w :=
    if existsb (selects kw) w
    then (Ok ∅, List.filter (fun r => negb (selects kw r)) w)
    else (Fails (not_found "DeleteScheduledAction"), w)
|}.

Definition describe_denied : Client unit := {|
  client_describe_scheduled_actions kw w :=
    (Fails (access_denied "DescribeScheduledActions"), w);
  client_put_scheduled_update_group_action kw w := (Ok ∅, w);
  client_delete_scheduled_action kw w := (Ok ∅, w)
|}.

Definition denied : Client unit := {|
  client_describe_scheduled_actions kw w :=
    (Fails (access_denied "DescribeScheduledActions"), w);
  client_put_scheduled_update_group_action kw w :=
    (Fails (access_denied "PutScheduledUpdateGroupAction"), w);
  client_delete_scheduled_action kw w :=
    (Fails (access_denied "DeleteScheduledAction"), w)
|}.

(** Serves [found] to every describe call and refuses every mutation. *)
Definition read_only (found : list record) : Client unit := {|
  client_describe_scheduled_actions kw w :=
    (Ok {["ScheduledUpdateGroupActions" := found]}, w);
  client_put_scheduled_update_group_action kw w :=
    (Fails (access_denied "PutScheduledUpdateGroupAction"), w);
  client_delete_scheduled_action kw w :=
    (Fails (access_denied "DeleteScheduledAction"), w)
|}.

(** Serves [found] to the first describe call and answers [later] to every
    describe call after it; accepts mutations. The world counts the describe
    calls. *)
Definition scripted (found : list record)
    (later : reply ClientError (gmap string (list record))) : Client nat := {|
  client_describe_scheduled_actions kw n :=
    (if Nat.eqb n 0 then Ok {["ScheduledUpdateGroupActions" := found]} else later, S n);
  client_put_scheduled_update_group_action kw n := (Ok ∅, n);
  client_delete_scheduled_action kw n := (Ok ∅, n)
|}.

(** The playbook of the module's EXAMPLES section. *)
Definition example (st : state_choice) : module_params := {|
  autoscaling_group_name := Some "test_asg";
  scheduled_action_name := Some "mtest_asg_schedule";
  start_time := Some "2017 August 18 08:00 UTC+10";
  end_time := Some "2018 August 18 08:00 UTC+10";
  recurrence := Some "40 22 * * 1-5";
  min_size := Some 0%Z;
  max_size := Some 0%Z;
  desired_capacity := Some 0%Z;
  state := st
|}.

(** The same playbook with the optional fields left out. *)
Definition bare (st : state_choice) : module_params := {|
  autoscaling_group_name := Some "test_asg";
  scheduled_action_name := Some "mtest_asg_schedule";
  start_time := None;
  end_time := None;
  recurrence := Some "40 22 * * 1-5";
  min_size := None;
  max_size := None;
  desired_capacity := Some 0%Z;
  state := st
|}.

(** The scheduled action the example playbook converges to. *)
Definition stored : record :=
  omap to_attr (delete "aws_retry" (put_params (example present))).

End Remote.

End ec2_asg_scheduled_action.

(** ** iam_user_facts.py *)

Module iam_user_facts.

(** The exceptions the module's [except] clauses catch. A botocore
    [ClientError] carries the remote's response; a [ParamValidationError]
    has no [response] attribute. *)
Inductive boto_error : Type :=
| ClientError (message : string) (response : record)
| ParamValidationError (message : string).

(** The parameter block of the playbook: [None] for an option left out. *)
Record supplied : Type := {
  supplied_name : option string;
  supplied_group : option string;
  supplied_path : option string
}.

(** [module.params] once the module object exists. *)
Record module_params : Type := {
  name : option string;
  group : option string;
  path : option string
}.

Inductive json : Type :=
| exit_json (iam_users : list record)
| fail_json (msg : string) (kw : record)
| ValidationError (mutually_exclusive : list string).

(** The calls the module issues on the IAM client. *)
Inductive call : Type :=
| GetUser (kw : kwargs)
| GetGroup (kw : kwargs)
| ListUsers (kw : kwargs).

(** The boto3 IAM client, over a remote world [W]; each call returns the
    response dict the module then indexes with ['User'] or ['Users']. *)
Record Client (W : Type) : Type := {
  client_get_user : kwargs -> W -> reply boto_error (gmap string record) * W;
  client_get_group : kwargs -> W -> reply boto_error (gmap string (list record)) * W;
  client_list_users : kwargs -> W -> reply boto_error (gmap string (list record)) * W
}.

Arguments client_get_user {W} c kw w.
Arguments client_get_group {W} c kw w.
Arguments client_list_users {W} c kw w.

(** The keyword arguments of the [get_group] and [list_users] calls when no
    [UserName] has been added before: [MaxItems] and the filter. *)
Definition group_params (g : string) : kwargs :=
  <["GroupName" := ArgStr g]> {["MaxItems" := ArgInt 1000]}.

Definition path_params (prefix : string) : kwargs :=
  <["PathPrefix" := ArgStr prefix]> {["MaxItems" := ArgInt 1000]}.

(** [user['UserName'] == name], as a property of a user. *)
Definition named (n : string) (user : record) : Prop :=
  user !! "UserName" = Some (AStr n).

#[global] Instance named_dec n user : Decision (named n user).
Proof. unfold named. apply _. Defined.

Section Run.

Context {W : Type} (connection : Client W).

(** [camel_dict_to_snake_dict] of module_utils/ec2.py rewrites the keys of a
    dict; the module only maps it over what it reports. *)
Variable camel_dict_to_snake_dict : record -> record.

Abbreviation run A := (M W call json A).

(** Modelled from the spec: [AnsibleModule] of module_utils/basic.py, which
    [main] constructs with [mutually_exclusive=[['group', 'path']]], is not
    among the sources.  The spec has the invocation host reject
    mutually-exclusive parameter combinations (group filter and path filter
    together) with a ValidationError before any remote call is made.
    Otherwise the module carries the supplied parameters, [path] taking the
    default ['/'] that [argument_spec] in [main] declares for it. *)
Definition AnsibleModule (p : supplied) : run module_params :=
  match supplied_group p, supplied_path p with
  | Some _, Some _ => exit (ValidationError ["group"; "path"])
  | _, _ =>
      ret {| name := supplied_name p;
             group := supplied_group p;
             path := Some (default "/" (supplied_path p)) |}
  end.

(** [except (ClientError, ParamValidationError) as e:
       module.fail_json(msg=<prefix> e.message <suffix>,
                        **camel_dict_to_snake_dict(e.response))] *)
Definition handler {A} (prefix suffix : string) (e : boto_error) : run A :=
  match e with
  | ClientError message response =>
      exit (fail_json (prefix +:+ message +:+ suffix)
                      (camel_dict_to_snake_dict response))
  | ParamValidationError message => raise (AttributeError "response")
  end.

(** [[user for user in iam_users if user['UserName'] == name]] *)
Fixpoint narrow (name : string) (iam_users : list record) : run (list record) :=
  match iam_users with
  | [] => ret []
  | user :: rest =>
      do n <- getitem user "UserName";
      do rest <- narrow name rest;
      ret (if bool_decide (n = AStr name) then user :: rest else rest)
  end.

Definition narrow_if (name : option string) (iam_users : list record)
  : run (list record) :=
  match name with
  | Some n => if truthy name then narrow n iam_users else ret iam_users
  | None => ret iam_users
  end.

Definition list_iam_users (module : module_params) : run Empty_set :=
  let name := name module in
  let group := group module in
  let path := path module in
  let params : kwargs := {["MaxItems" := ArgInt 1000]} in
  let iam_users : list record := [] in
  do '(params, iam_users) <-
    (if truthy name && negb (truthy path) then
       let params := <["UserName" := of_str name]> params in
       do r <- invoke (GetUser params) (client_get_user connection params);
       match r with
       | inl response =>
           do user <- getitem response "User";
           ret (params, (iam_users ++ [user])%list)
       | inr e => handler "" "" e
       end
     else ret (params, iam_users));
  do '(params, iam_users) <-
    (if truthy group then
       let params := <["GroupName" := of_str group]> params in
       do r <- invoke (GetGroup params) (client_get_group connection params);
       do iam_users <- match r with
                       | inl response => getitem response "Users"
                       | inr e => handler "Failed while listing IAM groups " " " e
                       end;
       do iam_users <- narrow_if name iam_users;
       ret (params, iam_users)
     else ret (params, iam_users));
  do '(params, iam_users) <-
    (if truthy path && negb (truthy group) then
       let params := <["PathPrefix" := of_str path]> params in
       do r <- invoke (ListUsers params) (client_list_users connection params);
       do iam_users <- match r with
                       | inl response => getitem response "Users"
                       | inr e => handler "Failed while listing IAM users " " " e
                       end;
       do iam_users <- narrow_if name iam_users;
       ret (params, iam_users)
     else ret (params, iam_users));
  exit (exit_json (List.map camel_dict_to_snake_dict iam_users)).

(** [main]; building the connection issues no IAM call. *)
Definition main (HAS_BOTO3 : bool) (p : supplied) : run Empty_set :=
  do module <- AnsibleModule p;
  if negb HAS_BOTO3 then exit (fail_json "boto3 required for this module" ∅)
  else list_iam_users module.

(** What the module does with the reply of a listing call. *)
Definition listed (prefix : string) (o : option string)
    (r : reply boto_error (gmap string (list record)))
    (s : run_state W call) : outcome json Empty_set :=
  match r with
  | Ok response =>
      match response !! "Users" with
      | Some users =>
          match (narrow_if o users s).1 with
          | Return kept => Exit (exit_json (camel_dict_to_snake_dict <$> kept))
          | Exit x => Exit x
          | Raise x => Raise x
          end
      | None => Raise (KeyError "Users")
      end
  | Fails (ClientError message response) =>
      Exit (fail_json (prefix +:+ message +:+ " ") (camel_dict_to_snake_dict response))
  | Fails (ParamValidationError _) => Raise (AttributeError "response")
  | Throws x => Raise x
  end.

End Run.

(** *** An IAM service to run the module against: users, each with the
    groups it belongs to. *)
Module Remote.

Definition has_name (n : string) (u : record * list string) : bool :=
  bool_decide (u.1 !! "UserName" = Some (AStr n)).

Definition under (prefix : string) (u : record * list string) : bool :=
  match u.1 !! "Path" with
  | Some (AStr p) => String.prefix prefix p
  | _ => false
  end.

Definition no_such_entity (n : string) : boto_error :=
  ClientError ("The user with name " +:+ n +:+ " cannot be found.")
              {["Code" := AStr "NoSuchEntity"]}.

Definition directory : Client (list (record * list string)) := {|
  client_get_user kw w :=
    match kw !! "UserName" with
    | Some (ArgStr n) =>
        match List.filter (has_name n) w with
        | u :: _ => (Ok {["User" := u.1]}, w)
        | [] => (Fails (no_such_entity n), w)
        end
    | _ => (Fails (ParamValidationError "UserName"), w)
    end;
  client_get_group kw w :=
    match kw !! "GroupName" with
    | Some (ArgStr g) =>
        (Ok {["Users" := List.map fst
                (List.filter (fun u => bool_decide (g ∈ u.2)) w)]}, w)
    | _ => (Fails (ParamValidationError "GroupName"), w)
    end;
  client_list_users kw w :=
    match kw !! "PathPrefix" with
    | Some (ArgStr p) => (Ok {["Users" := List.map fst (List.filter (under p) w)]}, w)
    | _ => (Ok {["Users" := List.map fst w]}, w)
    end
|}.

Definition user (n p : string) : record :=
  {["UserName" := AStr n; "Path" := AStr p]}.

Definition staff : list (record * list string) :=
  [(user "test" "/", ["dev"]);
   (user "alice" "/division_abc/subdivision_xyz/", ["dev"; "ops"]);
   (user "bob" "/division_abc/subdivision_xyz/", ["ops"])].

Definition access_denied : boto_error :=
  ClientError "User is not authorized to perform this operation"
              {["Code" := AStr "AccessDenied"]}.

(** An IAM service that refuses every call. *)
Definition forbidden : Client unit := {|
  client_get_user kw w := (Fails access_denied, w);
  client_get_group kw w := (Fails access_denied, w);
  client_list_users kw w := (Fails access_denied, w)
|}.

(** A parameter block. *)
Definition query (n g pa : option string) : supplied :=
  {| supplied_name := n; supplied_group := g; supplied_path := pa |}.

(** A key rewriting to run with: [UserName] to [user_name], [Path] to [path]. *)
Definition snake (r : record) : record :=
  kmap (fun k : string =>
          if String.eqb k "UserName" then "user_name"
          else if String.eqb k "Path" then "path" else k) r.

End Remote.

End iam_user_facts.

(** * Proof rules for the call log *)

Section LogRules.

Context {W C R : Type} (P : C -> Prop).

Lemma logs_only_ret {A} (a : A) : logs_only P (ret a : M W C R A).
Proof. intros s Hs. exact Hs. Qed.

Lemma logs_only_raise {A} (x : exn) : logs_only P (raise x : M W C R A).
Proof. intros s Hs. exact Hs. Qed.

Lemma logs_only_exit {A} (r : R) : logs_only P (exit r : M W C R A).
Proof. intros s Hs. exact Hs. Qed.

Lemma logs_only_bind {A B} (m : M W C R A) (k : A -> M W C R B) :
  logs_only P m -> (forall a, logs_only P (k a)) -> logs_only P (bind m k).
Proof.
  intros Hm Hk s Hs. unfold bind. specialize (Hm s Hs).
  destruct (m s) as [[a|r|x] s']; cbn [snd] in *; [|exact Hm..].
  apply Hk. exact Hm.
Qed.

Lemma logs_only_invoke {E A} (c : C) (f : W -> reply E A * W) :
  P c -> logs_only P (invoke c f : M W C R (A + E)).
Proof.
  intros Hc s Hs. unfold invoke.
  destruct (f (remote s)) as [[a|e|x] w']; cbn [snd calls];
    (apply Forall_app; split; [exact Hs|repeat constructor; exact Hc]).
Qed.

End LogRules.

(** One step through the structure of a computation. *)
Ltac step_logs :=
  first
    [ apply logs_only_ret
    | apply logs_only_raise
    | apply logs_only_exit
    | apply logs_only_invoke
    | apply logs_only_bind; [|intros ?]
    | match goal with
      | |- logs_only _ (match ?x with _ => _ end) => destruct x
      end ].

(** * Properties of the scheduled-action module *)

Module scheduled_action.

Import ec2_asg_scheduled_action.

Lemma common_params_name (mp : module_params) :
  get_common_params mp !! "ScheduledActionName"
  = Some (of_str (scheduled_action_name mp)).
Proof. reflexivity. Qed.

Lemma put_params_required (mp : module_params) :
  put_params mp !! "AutoScalingGroupName" = Some (of_str (autoscaling_group_name mp))
  /\ put_params mp !! "ScheduledActionName" = Some (of_str (scheduled_action_name mp))
  /\ put_params mp !! "Recurrence" = Some (of_str (recurrence mp))
  /\ put_params mp !! "DesiredCapacity" = Some (of_int (desired_capacity mp)).
Proof.
  destruct mp as [g a st en r [mn|] [mx|] d s]; destruct st, en; repeat split.
Qed.

Lemma put_params_optional (mp : module_params) :
  put_params mp !! "MinSize" = ArgInt <$> min_size mp
  /\ put_params mp !! "MaxSize" = ArgInt <$> max_size mp
  /\ put_params mp !! "StartTime" = ArgStr <$> start_time mp
  /\ put_params mp !! "EndTime" = ArgStr <$> end_time mp.
Proof.
  destruct mp as [g a st en r [mn|] [mx|] d s]; destruct st, en; repeat split.
Qed.

Section Runs.

Context {W : Type} (client : Client W).

Lemma describe_scheduled_actions_run (mp : module_params) (s : run_state W call) :
  describe_scheduled_actions client mp s =
  (described (client_describe_scheduled_actions client (describe_params mp) (remote s)).1,
   RunState (client_describe_scheduled_actions client (describe_params mp) (remote s)).2
            (calls s ++ [DescribeScheduledActions (describe_params mp)])).
Proof.
  unfold describe_scheduled_actions, bind, getitem.
  rewrite common_params_name. cbn [ret].
  fold (describe_params mp). unfold invoke.
  destruct (client_describe_scheduled_actions client (describe_params mp) (remote s))
    as [[actions|e|x] w']; reflexivity.
Qed.

Lemma describe_ok (mp : module_params) (w w' : W) (cs : list call) resp :
  client_describe_scheduled_actions client (describe_params mp) w = (Ok resp, w') ->
  describe_scheduled_actions client mp (RunState w cs) =
  (Return resp, RunState w' (cs ++ [DescribeScheduledActions (describe_params mp)])).
Proof. intros H. rewrite describe_scheduled_actions_run. cbn [remote calls]. rewrite H. reflexivity. Qed.

Lemma describe_fails (mp : module_params) (w w' : W) (cs : list call) e :
  client_describe_scheduled_actions client (describe_params mp) w = (Fails e, w') ->
  describe_scheduled_actions client mp (RunState w cs) =
  (Return ∅, RunState w' (cs ++ [DescribeScheduledActions (describe_params mp)])).
Proof. intros H. rewrite describe_scheduled_actions_run. cbn [remote calls]. rewrite H. reflexivity. Qed.

(** C1. With state=present, when the describe call finds the action, the
    upsert returns and the second describe call finds it again, the module
    exits with the upsert's response and changed=false exactly when the two
    snapshots agree on every field: the pre-upsert and post-upsert records
    are compared as whole dicts. *)
Theorem present_changed_compares_whole_snapshots
  (mp : module_params) (w w1 w2 w3 : W)
  (found refound : gmap string (list record)) (status pre post : record)
  (others others' : list record) :
  state mp = present ->
  client_describe_scheduled_actions client (describe_params mp) w = (Ok found, w1) ->
  found !! "ScheduledUpdateGroupActions" = Some (pre :: others) ->
  client_put_scheduled_update_group_action client (put_params mp) w1 = (Ok status, w2) ->
  client_describe_scheduled_actions client (describe_params mp) w2 = (Ok refound, w3) ->
  refound !! "ScheduledUpdateGroupActions" = Some (post :: others') ->
  exists changed : bool,
    (main client true mp (start w)).1 = Exit (exit_json changed (Response status))
    /\ (changed = false <-> forall field : string, pre !! field = post !! field)
    /\ (post = pre -> changed = false).
Proof.
  intros Hstate Hd1 Hpre Hput Hd2 Hpost.
  exists (bool_decide (pre ≠ post)).
  split.
  - unfold main. rewrite Hstate. cbn [negb].
    unfold put_scheduled_update_group_action, bind.
    unfold start. rewrite (describe_ok mp w w1 [] found Hd1).
    unfold invoke. cbn [remote calls]. rewrite Hput, Hpre. cbn.
    rewrite (describe_ok mp w2 w3 _ refound Hd2).
    rewrite Hpost. cbn.
    destruct (decide (pre ≠ post)) as [Hne|Heq].
    + rewrite (bool_decide_eq_true_2 _ Hne). reflexivity.
    + rewrite (bool_decide_eq_false_2 _ Heq). reflexivity.
  - split.
    + rewrite bool_decide_eq_false. split.
      * intros Hnn field. destruct (decide (pre = post)) as [->|Hne]; [reflexivity|].
        contradiction.
      * intros Hall Hne. apply Hne. apply map_eq. exact Hall.
    + intros ->. apply bool_decide_eq_false. intros Hne. apply Hne. reflexivity.
Qed.

(** C2. With state=present, when the describe call returns an empty action
    list and the upsert returns, the module exits with changed=true and the
    upsert's response, having issued exactly the describe call and one upsert
    that carries the group name, the action name, the recurrence, the desired
    capacity and every optional field the playbook sets. *)
Theorem present_creates_when_absent
  (mp : module_params) (w w1 w2 : W)
  (found : gmap string (list record)) (status : record) :
  state mp = present ->
  client_describe_scheduled_actions client (describe_params mp) w = (Ok found, w1) ->
  found !! "ScheduledUpdateGroupActions" = Some [] ->
  client_put_scheduled_update_group_action client (put_params mp) w1 = (Ok status, w2) ->
  main client true mp (start w) =
    (Exit (exit_json true (Response status)),
     RunState w2 [DescribeScheduledActions (describe_params mp);
                  PutScheduledUpdateGroupAction (put_params mp)])
  /\ put_params mp !! "AutoScalingGroupName" = Some (of_str (autoscaling_group_name mp))
  /\ put_params mp !! "ScheduledActionName" = Some (of_str (scheduled_action_name mp))
  /\ put_params mp !! "Recurrence" = Some (of_str (recurrence mp))
  /\ put_params mp !! "DesiredCapacity" = Some (of_int (desired_capacity mp))
  /\ (forall n, min_size mp = Some n -> put_params mp !! "MinSize" = Some (ArgInt n))
  /\ (forall n, max_size mp = Some n -> put_params mp !! "MaxSize" = Some (ArgInt n))
  /\ (forall t, start_time mp = Some t -> put_params mp !! "StartTime" = Some (ArgStr t))
  /\ (forall t, end_time mp = Some t -> put_params mp !! "EndTime" = Some (ArgStr t)).
Proof.
  intros Hstate Hd Hnone Hput.
  split.
  - unfold main. rewrite Hstate. cbn [negb].
    unfold put_scheduled_update_group_action, bind, start.
    rewrite (describe_ok mp w w1 [] found Hd).
    unfold invoke. cbn [remote calls]. rewrite Hput, Hnone. reflexivity.
  - pose proof (put_params_required mp) as (-> & -> & -> & ->).
    pose proof (put_params_optional mp) as (Hmin & Hmax & Hst & Hen).
    rewrite Hmin, Hmax, Hst, Hen.
    repeat split; try reflexivity; intros v ->; reflexivity.
Qed.

Lemma absent_noop_run
  (mp : module_params) (w w1 : W) (found : gmap string (list record)) :
  state mp = absent ->
  client_describe_scheduled_actions client (describe_params mp) w = (Ok found, w1) ->
  found !! "ScheduledUpdateGroupActions" = Some [] ->
  main client true mp (start w) =
    (Exit (exit_json false (Actions [])),
     RunState w1 [DescribeScheduledActions (describe_params mp)]).
Proof.
  intros Hstate Hd Hnone.
  unfold main. rewrite Hstate. cbn [negb].
  unfold delete_scheduled_action, bind, start.
  rewrite (describe_ok mp w w1 [] found Hd), Hnone. reflexivity.
Qed.

(** C3. With state=absent, when the describe call returns an empty action
    list, the module exits with changed=false after that single describe
    call: no delete call is issued. *)
Theorem absent_noop_when_absent
  (mp : module_params) (w w1 : W) (found : gmap string (list record)) :
  state mp = absent ->
  client_describe_scheduled_actions client (describe_params mp) w = (Ok found, w1) ->
  found !! "ScheduledUpdateGroupActions" = Some [] ->
  main client true mp (start w) =
    (Exit (exit_json false (Actions [])),
     RunState w1 [DescribeScheduledActions (describe_params mp)])
  /\ existsb is_delete (calls (main client true mp (start w)).2) = false.
Proof.
  intros Hstate Hd Hnone.
  rewrite (absent_noop_run mp w w1 found Hstate Hd Hnone).
  split; reflexivity.
Qed.

(** With state=absent, when the describe call finds an action and the delete
    call returns, the module exits with changed=true and leaves the remote in
    the world the delete produced. *)
Lemma absent_deletes_when_present
  (mp : module_params) (w w1 w2 : W) (found : gmap string (list record))
  (action : record) (others : list record) (deleted : record) :
  state mp = absent ->
  client_describe_scheduled_actions client (describe_params mp) w = (Ok found, w1) ->
  found !! "ScheduledUpdateGroupActions" = Some (action :: others) ->
  client_delete_scheduled_action client (get_common_params mp) w1 = (Ok deleted, w2) ->
  main client true mp (start w) =
    (Exit (exit_json true (Response deleted)),
     RunState w2 [DescribeScheduledActions (describe_params mp);
                  DeleteScheduledAction (get_common_params mp)]).
Proof.
  intros Hstate Hd Hsome Hdel.
  unfold main. rewrite Hstate. cbn [negb].
  unfold delete_scheduled_action, bind, start.
  rewrite (describe_ok mp w w1 [] found Hd), Hsome. cbn [length Nat.eqb].
  unfold invoke. cbn [remote calls]. rewrite Hdel. reflexivity.
Qed.

(** C4. With state=absent, running the module twice in a row on a remote
    where the action exists (the second run starts in the world the first one
    left, and the remote no longer lists an action it has deleted) exits with
    changed=true the first time and changed=false the second time. *)
Theorem absent_twice_changed_then_unchanged
  (mp : module_params) (w w1 w2 w3 : W) (found refound : gmap string (list record))
  (action : record) (others : list record) (deleted : record) :
  state mp = absent ->
  client_describe_scheduled_actions client (describe_params mp) w = (Ok found, w1) ->
  found !! "ScheduledUpdateGroupActions" = Some (action :: others) ->
  client_delete_scheduled_action client (get_common_params mp) w1 = (Ok deleted, w2) ->
  client_describe_scheduled_actions client (describe_params mp) w2 = (Ok refound, w3) ->
  refound !! "ScheduledUpdateGroupActions" = Some [] ->
  let first := main client true mp (start w) in
  let second := main client true mp (start (remote first.2)) in
  first.1 = Exit (exit_json true (Response deleted))
  /\ second.1 = Exit (exit_json false (Actions [])).
Proof.
  intros Hstate Hd Hsome Hdel Hd' Hnone first second.
  subst first second.
  rewrite (absent_deletes_when_present mp w w1 w2 found action others deleted
             Hstate Hd Hsome Hdel).
  split; [reflexivity|]. cbn [snd remote].
  rewrite (absent_noop_run mp w2 w3 refound Hstate Hd' Hnone).
  reflexivity.
Qed.

Lemma describe_logs_only (P : call -> Prop) (mp : module_params) :
  P (DescribeScheduledActions (describe_params mp)) ->
  logs_only P (describe_scheduled_actions client mp).
Proof.
  intros HP s Hs. rewrite describe_scheduled_actions_run. cbn [snd calls].
  apply Forall_app. split; [exact Hs|]. repeat constructor. exact HP.
Qed.

(** Every call a run issues is the describe, the upsert or the delete the
    module builds from its parameters. *)
Lemma main_calls (mp : module_params) (w : W) (c : call) :
  c ∈ calls (main client true mp (start w)).2 ->
  c = DescribeScheduledActions (describe_params mp)
  \/ c = PutScheduledUpdateGroupAction (put_params mp)
  \/ c = DeleteScheduledAction (get_common_params mp).
Proof.
  revert c. apply Forall_forall.
  assert (logs_only (fun c =>
            c = DescribeScheduledActions (describe_params mp)
            \/ c = PutScheduledUpdateGroupAction (put_params mp)
            \/ c = DeleteScheduledAction (get_common_params mp))
          (main client true mp)) as Hlogs.
  { unfold main, put_scheduled_update_group_action, delete_scheduled_action,
      fail, len, item0, local.
    cbn [negb].
    repeat first
      [ apply describe_logs_only
      | step_logs
      | left; reflexivity
      | right; left; reflexivity
      | right; right; reflexivity ]. }
  apply Hlogs. constructor.
Qed.

(** C8. Whatever upsert request a state=present run issues, an optional
    field (min_size, max_size, start_time, end_time) the playbook leaves out
    is not a key of the request, and one the playbook sets is in the request
    with the value set. *)
Theorem put_request_carries_exactly_the_set_optionals
  (mp : module_params) (w : W) (kw : kwargs) :
  PutScheduledUpdateGroupAction kw ∈ calls (main client true mp (start w)).2 ->
  kw !! "MinSize" = ArgInt <$> min_size mp
  /\ kw !! "MaxSize" = ArgInt <$> max_size mp
  /\ kw !! "StartTime" = ArgStr <$> start_time mp
  /\ kw !! "EndTime" = ArgStr <$> end_time mp.
Proof.
  intros Hin. apply main_calls in Hin as [Hc|[Hc|Hc]]; try discriminate Hc.
  injection Hc as ->. apply put_params_optional.
Qed.

(** C5, as the module has it. A [ClientError] the upsert or the delete call
    raises ends the invocation with [fail_json(msg=str(e))], which carries the
    remote's code and message. A [ClientError] the describe call raises,
    whatever its code, is swallowed: [describe_scheduled_actions] hands back
    the empty dict and the invocation goes on. *)
Theorem client_errors_fatal_except_describe
  (mp : module_params) (w w1 : W)
  (r : reply ClientError (gmap string (list record))) (e : ClientError) :
  client_describe_scheduled_actions client (describe_params mp) w = (r, w1) ->
  (forall x, r <> Throws x) ->
  (r = Fails e ->
     describe_scheduled_actions client mp (start w) =
       (Return ∅, RunState w1 [DescribeScheduledActions (describe_params mp)]))
  /\ (forall w2, state mp = present ->
       client_put_scheduled_update_group_action client (put_params mp) w1 = (Fails e, w2) ->
       main client true mp (start w) =
         (Exit (fail_json (str e)),
          RunState w2 [DescribeScheduledActions (describe_params mp);
                       PutScheduledUpdateGroupAction (put_params mp)]))
  /\ (forall w2 found action others, state mp = absent ->
       r = Ok found ->
       found !! "ScheduledUpdateGroupActions" = Some (action :: others) ->
       client_delete_scheduled_action client (get_common_params mp) w1 = (Fails e, w2) ->
       main client true mp (start w) =
         (Exit (fail_json (str e)),
          RunState w2 [DescribeScheduledActions (describe_params mp);
                       DeleteScheduledAction (get_common_params mp)])).
Proof.
  intros Hd Hr. split; [|split].
  - intros ->. apply (describe_fails mp w w1 [] e Hd).
  - intros w2 Hstate Hput.
    unfold main. rewrite Hstate. cbn [negb].
    unfold put_scheduled_update_group_action, bind, start.
    rewrite describe_scheduled_actions_run. cbn [remote calls].
    rewrite Hd. cbn [fst snd].
    destruct r as [found|e'|x]; [| |destruct (Hr x eq_refl)];
      cbn [described]; unfold invoke; cbn [remote calls];
      rewrite Hput; reflexivity.
  - intros w2 found action others Hstate -> Hsome Hdel.
    unfold main. rewrite Hstate. cbn [negb].
    unfold delete_scheduled_action, bind, start.
    rewrite (describe_ok mp w w1 [] found Hd), Hsome. cbn [length Nat.eqb].
    unfold invoke. cbn [remote calls]. rewrite Hdel. reflexivity.
Qed.

(** C10, as the module has it. When the dict [describe_scheduled_actions]
    hands back has no "ScheduledUpdateGroupActions" key, a state=absent run
    raises NameError (the local [actions] is read before it is assigned); a
    state=present run issues the upsert first, and raises TypeError
    ([len(None)]) when the upsert returns, but ends with
    [fail_json(msg=str(e))] when the upsert raises a [ClientError]. *)
Theorem missing_key_raises_unless_upsert_fails
  (mp : module_params) (w : W) (existing : gmap string (list record))
  (s1 : run_state W call) :
  describe_scheduled_actions client mp (start w) = (Return existing, s1) ->
  existing !! "ScheduledUpdateGroupActions" = None ->
  match state mp with
  | absent =>
      exists x, (main client true mp (start w)).1 = Raise x /\ is_NameError x = true
  | present =>
      match (client_put_scheduled_update_group_action client (put_params mp) (remote s1)).1 with
      | Ok _ =>
          exists x, (main client true mp (start w)).1 = Raise x /\ is_TypeError x = true
      | Fails e => (main client true mp (start w)).1 = Exit (fail_json (str e))
      | Throws x => (main client true mp (start w)).1 = Raise x
      end
  end.
Proof.
  intros Hd Hnone. unfold main. cbn [negb].
  destruct (state mp).
  - unfold put_scheduled_update_group_action, bind. rewrite Hd.
    unfold invoke.
    destruct (client_put_scheduled_update_group_action client (put_params mp) (remote s1))
      as [[status|e|x] w2]; cbn [fst]; rewrite ?Hnone; cbn.
    + eexists. split; reflexivity.
    + reflexivity.
    + reflexivity.
  - unfold delete_scheduled_action, bind. rewrite Hd, Hnone. cbn.
    eexists. split; reflexivity.
Qed.

End Runs.

(** ** Runs against the remote services *)

Import Remote.

(** C1 on the in-memory service: the example playbook applied to a remote
    that already holds the action it describes reports changed=false. *)
Lemma present_changed_compares_whole_snapshots_witness :
  exists changed : bool,
    (main memory true (example present) (start [stored])).1
      = Exit (exit_json changed (Response ∅))
    /\ (changed = false <-> forall field : string, stored !! field = stored !! field)
    /\ (stored = stored -> changed = false).
Proof.
  apply (present_changed_compares_whole_snapshots memory (example present)
           [stored] [stored] [stored] [stored]
           {["ScheduledUpdateGroupActions" := [stored]]}
           {["ScheduledUpdateGroupActions" := [stored]]}
           ∅ stored stored [] []);
    vm_compute; reflexivity.
Defined.

(** C2 on the in-memory service: the example playbook applied to an empty
    remote reports changed=true. *)
Lemma present_creates_when_absent_witness :
  state (example present) = present
  /\ (main memory true (example present) (start [])).1
     = Exit (exit_json true (Response ∅))
  /\ put_params (example present) !! "Recurrence" = Some (ArgStr "40 22 * * 1-5").
Proof.
  split; [reflexivity|].
  destruct (present_creates_when_absent memory (example present)
              [] [] [stored] {["ScheduledUpdateGroupActions" := []]} ∅)
    as (Hrun & _ & _ & Hrec & _); try (vm_compute; reflexivity).
  split; [rewrite Hrun; reflexivity | exact Hrec].
Defined.

(** C3 on the in-memory service: state=absent on an empty remote. *)
Lemma absent_noop_when_absent_witness :
  state (bare absent) = absent
  /\ main memory true (bare absent) (start [])
     = (Exit (exit_json false (Actions [])),
        RunState [] [DescribeScheduledActions (describe_params (bare absent))])
  /\ existsb is_delete (calls (main memory true (bare absent) (start [])).2) = false.
Proof.
  split; [reflexivity|].
  apply (absent_noop_when_absent memory (bare absent) [] []
           {["ScheduledUpdateGroupActions" := []]});
    vm_compute; reflexivity.
Defined.

(** C4 on the in-memory service: state=absent twice on a remote that holds
    the action. *)
Lemma absent_twice_changed_then_unchanged_witness :
  state (example absent) = absent
  /\ (main memory true (example absent) (start [stored])).1
     = Exit (exit_json true (Response ∅))
  /\ (main memory true (example absent)
        (start (remote (main memory true (example absent) (start [stored])).2))).1
     = Exit (exit_json false (Actions [])).
Proof.
  split; [reflexivity|].
  apply (absent_twice_changed_then_unchanged memory (example absent)
           [stored] [stored] [] []
           {["ScheduledUpdateGroupActions" := [stored]]}
           {["ScheduledUpdateGroupActions" := []]}
           stored [] ∅);
    vm_compute; reflexivity.
Defined.

(** C5 as amended, on a remote that refuses mutations and on one that
    refuses everything. *)
Lemma client_errors_fatal_except_describe_witness :
  describe_scheduled_actions denied (bare present) (start tt)
    = (Return ∅, RunState tt [DescribeScheduledActions (describe_params (bare present))])
  /\ (main (read_only [stored]) true (example present) (start tt)).1
     = Exit (fail_json (str (access_denied "PutScheduledUpdateGroupAction")))
  /\ (main (read_only [stored]) true (example absent) (start tt)).1
     = Exit (fail_json (str (access_denied "DeleteScheduledAction"))).
Proof.
  split; [|split].
  - apply (client_errors_fatal_except_describe denied (bare present) tt tt
             (Fails (access_denied "DescribeScheduledActions"))
             (access_denied "DescribeScheduledActions"));
      [reflexivity | discriminate | reflexivity].
  - destruct (client_errors_fatal_except_describe (read_only [stored])
                (example present) tt tt
                (Ok {["ScheduledUpdateGroupActions" := [stored]]})
                (access_denied "PutScheduledUpdateGroupAction"))
      as (_ & Hput & _); [reflexivity | discriminate |].
    rewrite (Hput tt eq_refl eq_refl). reflexivity.
  - destruct (client_errors_fatal_except_describe (read_only [stored])
                (example absent) tt tt
                (Ok {["ScheduledUpdateGroupActions" := [stored]]})
                (access_denied "DeleteScheduledAction"))
      as (_ & _ & Hdel); [reflexivity | discriminate |].
    rewrite (Hdel tt _ stored [] eq_refl eq_refl eq_refl eq_refl). reflexivity.
Defined.

(** C8 on the in-memory service: the playbook without optional fields sends
    an upsert without them. *)
Lemma put_request_carries_exactly_the_set_optionals_witness :
  PutScheduledUpdateGroupAction (put_params (bare present))
    ∈ calls (main memory true (bare present) (start [])).2
  /\ put_params (bare present) !! "MinSize" = None
  /\ put_params (bare present) !! "MaxSize" = None
  /\ put_params (bare present) !! "StartTime" = None
  /\ put_params (bare present) !! "EndTime" = None.
Proof.
  assert (PutScheduledUpdateGroupAction (put_params (bare present))
            ∈ calls (main memory true (bare present) (start [])).2) as Hin.
  { vm_compute. apply list_elem_of_further, list_elem_of_here. }
  split; [exact Hin|].
  exact (put_request_carries_exactly_the_set_optionals memory (bare present) []
           (put_params (bare present)) Hin).
Defined.

(** C10 as amended, on a remote that refuses the describe call and on one
    that refuses everything. *)
Lemma missing_key_raises_unless_upsert_fails_witness :
  (exists x, (main describe_denied true (bare absent) (start tt)).1 = Raise x
             /\ is_NameError x = true)
  /\ (exists x, (main describe_denied true (bare present) (start tt)).1 = Raise x
                /\ is_TypeError x = true)
  /\ (main denied true (bare present) (start tt)).1
     = Exit (fail_json (str (access_denied "PutScheduledUpdateGroupAction"))).
Proof.
  split; [|split].
  - exact (missing_key_raises_unless_upsert_fails describe_denied (bare absent) tt
             ∅ _ eq_refl eq_refl).
  - exact (missing_key_raises_unless_upsert_fails describe_denied (bare present) tt
             ∅ _ eq_refl eq_refl).
  - exact (missing_key_raises_unless_upsert_fails denied (bare present) tt
             ∅ _ eq_refl eq_refl).
Defined.

(** C5 fails as stated: an AccessDenied error of the describe call is not
    surfaced. The state=absent run raises NameError instead, and the
    state=present run goes on to issue the upsert before it raises
    TypeError. *)
Lemma describe_access_denied_is_swallowed :
  client_describe_scheduled_actions describe_denied (describe_params (bare absent)) tt
    = (Fails (access_denied "DescribeScheduledActions"), tt)
  /\ Error_Code (access_denied "DescribeScheduledActions") = "AccessDenied"
  /\ main describe_denied true (bare absent) (start tt)
      = (Raise (UnboundLocalError "actions"),
         RunState tt [DescribeScheduledActions (describe_params (bare absent))])
  /\ main describe_denied true (bare present) (start tt)
      = (Raise (TypeError "object of type 'NoneType' has no len()"),
         RunState tt [DescribeScheduledActions (describe_params (bare present));
                      PutScheduledUpdateGroupAction (put_params (bare present))])
  /\ ~ (forall (W : Type) (client : Client W) mp w e w1,
         client_describe_scheduled_actions client (describe_params mp) w = (Fails e, w1) ->
         Error_Code e = "AccessDenied" ->
         (main client true mp (start w)).1 = Exit (fail_json (str e))).
Proof.
  split; [reflexivity|]. split; [reflexivity|].
  split; [vm_compute; reflexivity|]. split; [vm_compute; reflexivity|].
  intros H.
  specialize (H unit describe_denied (bare absent) tt
                (access_denied "DescribeScheduledActions") tt eq_refl eq_refl).
  vm_compute in H. discriminate H.
Qed.

(** C10 fails as stated on the state=present path: when the describe call
    and the upsert are both refused, the describe error is swallowed and the
    run ends with the structured [fail_json] of the upsert, not with
    TypeError. *)
Lemma missing_key_present_can_fail_json :
  describe_scheduled_actions denied (bare present) (start tt)
    = (Return ∅, RunState tt [DescribeScheduledActions (describe_params (bare present))])
  /\ (∅ : gmap string (list record)) !! "ScheduledUpdateGroupActions" = None
  /\ main denied true (bare present) (start tt)
      = (Exit (fail_json (str (access_denied "PutScheduledUpdateGroupAction"))),
         RunState tt [DescribeScheduledActions (describe_params (bare present));
                      PutScheduledUpdateGroupAction (put_params (bare present))])
  /\ ~ (forall (W : Type) (client : Client W) mp w existing s1,
         describe_scheduled_actions client mp (start w) = (Return existing, s1) ->
         existing !! "ScheduledUpdateGroupActions" = None ->
         exists x, (main client true mp (start w)).1 = Raise x
                   /\ (is_NameError x = true \/ is_TypeError x = true)).
Proof.
  split; [vm_compute; reflexivity|]. split; [reflexivity|].
  split; [vm_compute; reflexivity|].
  intros H.
  destruct (H unit denied (bare present) tt ∅ _ eq_refl eq_refl) as (x & Hx & _).
  vm_compute in Hx. discriminate Hx.
Qed.

End scheduled_action.

(** * Properties of the IAM user lookup *)

Module user_facts.

Import iam_user_facts.

Lemma truthy_Some (n : string) : n <> "" -> truthy (Some n) = true.
Proof.
  intros Hn. unfold truthy. destruct (String.eqb_spec n ""); [contradiction|reflexivity].
Qed.

Section Runs.

Context {W : Type} (connection : Client W).
Variable camel_dict_to_snake_dict : record -> record.

(** On users that all carry a UserName, the comprehension is the filter. *)
Lemma narrow_filter (n : string) (users : list record) (s : run_state W call) :
  Forall (fun user => is_Some (user !! "UserName")) users ->
  narrow n users s = (Return (filter (named n) users), s).
Proof.
  induction 1 as [|user users [x Hx] _ IH]; [reflexivity|].
  cbn [narrow]. unfold bind, getitem. rewrite Hx. cbn [ret]. rewrite IH.
  unfold ret. rewrite filter_cons.
  destruct (decide (named n user)) as [Hyes|Hno]; unfold named in *; rewrite Hx in *.
  - injection Hyes as ->. rewrite bool_decide_eq_true_2; reflexivity.
  - rewrite bool_decide_eq_false_2; [reflexivity|]. intros ->. apply Hno. reflexivity.
Qed.

(** C6. When the playbook supplies both group and path, the invocation ends
    with the ValidationError for that pair without having issued any call:
    the call log is empty and the remote is untouched. *)
Theorem group_and_path_rejected_before_any_call
  (HAS_BOTO3 : bool) (p : supplied) (w : W) (g pa : string) :
  supplied_group p = Some g ->
  supplied_path p = Some pa ->
  main connection camel_dict_to_snake_dict HAS_BOTO3 p (start w)
  = (Exit (ValidationError ["group"; "path"]), RunState w []).
Proof.
  intros Hg Hp. unfold main, bind, AnsibleModule. rewrite Hg, Hp. reflexivity.
Qed.

(** The run of a lookup by name alone: one [list_users] call under the
    default path ['/'], narrowed to the name. *)
Lemma name_only_run
  (p : supplied) (w w1 : W) (n : string)
  (response : gmap string (list record)) (users : list record) :
  supplied_name p = Some n -> n <> "" ->
  supplied_group p = None -> supplied_path p = None ->
  client_list_users connection (path_params "/") w = (Ok response, w1) ->
  response !! "Users" = Some users ->
  Forall (fun user => is_Some (user !! "UserName")) users ->
  main connection camel_dict_to_snake_dict true p (start w)
  = (Exit (exit_json (camel_dict_to_snake_dict <$> filter (named n) users)),
     RunState w1 [ListUsers (path_params "/")]).
Proof.
  intros Hname Hn Hgroup Hpath Hlist Husers Hkeys.
  unfold main, bind, AnsibleModule. rewrite Hgroup, Hpath. cbn [ret negb default].
  unfold list_iam_users, bind. cbn [name group path].
  rewrite Hname, (truthy_Some n Hn).
  cbn [truthy String.eqb negb andb ret of_str Ascii.eqb].
  unfold invoke, start. cbn [remote calls].
  unfold path_params in Hlist. rewrite Hlist.
  unfold getitem. rewrite Husers. cbn [ret].
  unfold narrow_if. rewrite (truthy_Some n Hn).
  rewrite (narrow_filter n users _ Hkeys). reflexivity.
Qed.

Lemma filter_named_none (n : string) (users : list record) :
  Forall (fun user => ~ named n user) users -> filter (named n) users = [].
Proof.
  induction 1 as [|user users Hno _ IH]; [reflexivity|].
  rewrite filter_cons, IH. destruct (decide (named n user)); [contradiction|reflexivity].
Qed.

Lemma filter_named_single (n : string) (before after : list record) (user : record) :
  named n user ->
  Forall (fun u => ~ named n u) before ->
  Forall (fun u => ~ named n u) after ->
  filter (named n) (before ++ user :: after)%list = [user].
Proof.
  intros Hyes Hbefore Hafter.
  rewrite filter_app, filter_cons, (filter_named_none n before Hbefore),
    (filter_named_none n after Hafter).
  destruct (decide (named n user)); [reflexivity|contradiction].
Qed.

(** C7. A lookup by name alone (no group, no path, so that path takes its
    default ['/']) issues one [list_users] call and reports the fetched users
    whose UserName is the name: nothing, without any error, when no fetched
    user has that name, and exactly that user when one fetched user has it. *)
Theorem name_only_lookup
  (p : supplied) (w w1 : W) (n : string)
  (response : gmap string (list record)) (users : list record) :
  supplied_name p = Some n -> n <> "" ->
  supplied_group p = None -> supplied_path p = None ->
  client_list_users connection (path_params "/") w = (Ok response, w1) ->
  response !! "Users" = Some users ->
  Forall (fun user => is_Some (user !! "UserName")) users ->
  calls (main connection camel_dict_to_snake_dict true p (start w)).2
    = [ListUsers (path_params "/")]
  /\ (main connection camel_dict_to_snake_dict true p (start w)).1
     = Exit (exit_json (camel_dict_to_snake_dict <$> filter (named n) users))
  /\ (Forall (fun user => ~ named n user) users ->
      (main connection camel_dict_to_snake_dict true p (start w)).1
        = Exit (exit_json []))
  /\ (forall before user after,
        users = (before ++ user :: after)%list -> named n user ->
        Forall (fun u => ~ named n u) before ->
        Forall (fun u => ~ named n u) after ->
        (main connection camel_dict_to_snake_dict true p (start w)).1
          = Exit (exit_json [camel_dict_to_snake_dict user])).
Proof.
  intros Hname Hn Hgroup Hpath Hlist Husers Hkeys.
  rewrite (name_only_run p w w1 n response users Hname Hn Hgroup Hpath Hlist Husers Hkeys).
  cbn [fst snd calls]. repeat split.
  - intros Hnone. rewrite (filter_named_none n users Hnone). reflexivity.
  - intros before user after -> Hyes Hbefore Hafter.
    rewrite (filter_named_single n before after user Hyes Hbefore Hafter). reflexivity.
Qed.

Lemma narrow_if_falsy (o : option string) (users : list record) (s : run_state W call) :
  truthy o = false -> narrow_if o users s = (Return users, s).
Proof. intros Ho. unfold narrow_if. destruct o; [rewrite Ho|]; reflexivity. Qed.

Lemma narrow_if_truthy (n : string) (users : list record) (s : run_state W call) :
  n <> "" ->
  Forall (fun user => is_Some (user !! "UserName")) users ->
  narrow_if (Some n) users s = (Return (filter (named n) users), s).
Proof.
  intros Hn Hkeys. unfold narrow_if. rewrite (truthy_Some n Hn).
  apply narrow_filter. exact Hkeys.
Qed.

(** What a lookup reports from the fetched users: all of them, or those the
    name filter keeps. *)
Lemma narrow_if_run (o : option string) (users : list record) (s : run_state W call) :
  (truthy o = true -> Forall (fun user => is_Some (user !! "UserName")) users) ->
  narrow_if o users s
  = (Return (match o with
             | Some n => if truthy o then filter (named n) users else users
             | None => users
             end), s).
Proof.
  intros Hkeys. destruct o as [n|]; [|reflexivity].
  destruct (truthy (Some n)) eqn:Ht.
  - unfold narrow_if. rewrite Ht. apply narrow_filter. apply Hkeys. reflexivity.
  - apply narrow_if_falsy. exact Ht.
Qed.

(** C9. A lookup by group, or by path prefix, issues the one listing call
    and reports every fetched user, in the order fetched, each passed through
    [camel_dict_to_snake_dict]; when a name is given as well, it reports the
    fetched users whose UserName is the name. *)
Theorem group_or_path_lookup
  (p : supplied) (w w1 : W) (c : call)
  (response : gmap string (list record)) (users : list record) :
  ((exists g, supplied_group p = Some g /\ g <> "" /\ supplied_path p = None
              /\ c = GetGroup (group_params g)
              /\ client_get_group connection (group_params g) w = (Ok response, w1))
   \/ (exists prefix, supplied_path p = Some prefix /\ prefix <> ""
                      /\ supplied_group p = None
                      /\ c = ListUsers (path_params prefix)
                      /\ client_list_users connection (path_params prefix) w
                         = (Ok response, w1))) ->
  response !! "Users" = Some users ->
  (truthy (supplied_name p) = true ->
   Forall (fun user => is_Some (user !! "UserName")) users) ->
  (truthy (supplied_name p) = false ->
   main connection camel_dict_to_snake_dict true p (start w)
   = (Exit (exit_json (camel_dict_to_snake_dict <$> users)), RunState w1 [c]))
  /\ (forall n, supplied_name p = Some n -> n <> "" ->
      main connection camel_dict_to_snake_dict true p (start w)
      = (Exit (exit_json (camel_dict_to_snake_dict <$> filter (named n) users)),
         RunState w1 [c])).
Proof.
  intros Hfilter Husers Hkeys.
  assert (main connection camel_dict_to_snake_dict true p (start w)
          = (Exit (exit_json (camel_dict_to_snake_dict <$>
                     match supplied_name p with
                     | Some n => if truthy (supplied_name p)
                                 then filter (named n) users else users
                     | None => users
                     end)), RunState w1 [c])) as Hrun.
  { destruct Hfilter as [(g & Hg & Hgne & Hpath & -> & Hcall)
                        |(prefix & Hpath & Hpne & Hg & -> & Hcall)].
    - unfold main, bind, AnsibleModule. rewrite Hg, Hpath. cbn [ret negb default from_option id].
      unfold list_iam_users, bind. cbn [name group path].
      rewrite (truthy_Some g Hgne), (truthy_Some "/" ltac:(discriminate)).
      rewrite andb_false_r. cbn [negb andb ret of_str].
      unfold invoke, start. cbn [remote calls].
      unfold group_params in Hcall. rewrite Hcall.
      unfold getitem. rewrite Husers. cbn [ret].
      rewrite (narrow_if_run _ users _ Hkeys). reflexivity.
    - unfold main, bind, AnsibleModule. rewrite Hg, Hpath. cbn [ret negb default from_option id].
      unfold list_iam_users, bind. cbn [name group path].
      rewrite (truthy_Some prefix Hpne).
      rewrite andb_false_r. cbn [truthy negb andb ret of_str].
      unfold invoke, start. cbn [remote calls].
      unfold path_params in Hcall. rewrite Hcall.
      unfold getitem. rewrite Husers. cbn [ret].
      rewrite (narrow_if_run _ users _ Hkeys). reflexivity. }
  split.
  - intros Hfalsy. rewrite Hrun. destruct (supplied_name p); [rewrite Hfalsy|]; reflexivity.
  - intros n Hname Hn. rewrite Hrun, Hname, (truthy_Some n Hn). reflexivity.
Qed.

End Runs.

(** ** Runs against the IAM service *)

Import Remote.

Lemma staff_have_names :
  Forall (fun user : record => is_Some (user !! "UserName")) (List.map fst staff).
Proof.
  cbn [List.map staff fst]. repeat (constructor; [eexists; reflexivity|]). constructor.
Qed.

(** C6 on the directory: group "dev" together with path "/". *)
Lemma group_and_path_rejected_before_any_call_witness :
  supplied_group (query None (Some "dev") (Some "/")) = Some "dev"
  /\ supplied_path (query None (Some "dev") (Some "/")) = Some "/"
  /\ main directory snake true (query None (Some "dev") (Some "/")) (start staff)
     = (Exit (ValidationError ["group"; "path"]), RunState staff []).
Proof.
  split; [reflexivity|]. split; [reflexivity|].
  apply (group_and_path_rejected_before_any_call directory snake true
           (query None (Some "dev") (Some "/")) staff "dev" "/");
    reflexivity.
Defined.

(** C7 on the directory: the name "test" finds the one user, the name
    "nobody" finds none and the run still exits normally. *)
Lemma name_only_lookup_witness :
  (main directory snake true (query (Some "test") None None) (start staff)).1
    = Exit (exit_json [snake (user "test" "/")])
  /\ (main directory snake true (query (Some "nobody") None None) (start staff)).1
     = Exit (exit_json []).
Proof.
  split.
  - destruct (name_only_lookup directory snake (query (Some "test") None None)
                staff staff "test" {["Users" := List.map fst staff]}
                (List.map fst staff))
      as (_ & _ & _ & Hone);
      [reflexivity | discriminate | reflexivity | reflexivity
      | vm_compute; reflexivity | reflexivity | exact staff_have_names |].
    apply (Hone [] (user "test" "/")
             [user "alice" "/division_abc/subdivision_xyz/";
              user "bob" "/division_abc/subdivision_xyz/"]).
    + reflexivity.
    + reflexivity.
    + constructor.
    + repeat (constructor; [vm_compute; discriminate|]). constructor.
  - destruct (name_only_lookup directory snake (query (Some "nobody") None None)
                staff staff "nobody" {["Users" := List.map fst staff]}
                (List.map fst staff))
      as (_ & _ & Hnone & _);
      [reflexivity | discriminate | reflexivity | reflexivity
      | vm_compute; reflexivity | reflexivity | exact staff_have_names |].
    apply Hnone. cbn [List.map staff fst].
    repeat (constructor; [vm_compute; discriminate|]). constructor.
Defined.

(** C9 on the directory: group "dev" reports both of its users; path
    "/division_abc/subdivision_xyz/" with the name "bob" reports bob. *)
Lemma group_or_path_lookup_witness :
  main directory snake true (query None (Some "dev") None) (start staff)
    = (Exit (exit_json [snake (user "test" "/");
                        snake (user "alice" "/division_abc/subdivision_xyz/")]),
       RunState staff [GetGroup (group_params "dev")])
  /\ main directory snake true
       (query (Some "bob") None (Some "/division_abc/subdivision_xyz/")) (start staff)
     = (Exit (exit_json [snake (user "bob" "/division_abc/subdivision_xyz/")]),
        RunState staff [ListUsers (path_params "/division_abc/subdivision_xyz/")]).
Proof.
  split.
  - destruct (group_or_path_lookup directory snake (query None (Some "dev") None)
                staff staff (GetGroup (group_params "dev"))
                {["Users" := [user "test" "/";
                              user "alice" "/division_abc/subdivision_xyz/"]]}
                [user "test" "/"; user "alice" "/division_abc/subdivision_xyz/"])
      as [Hall _].
    + left. exists "dev". repeat split; try reflexivity; try discriminate.
    + reflexivity.
    + discriminate.
    + rewrite (Hall eq_refl). reflexivity.
  - destruct (group_or_path_lookup directory snake
                (query (Some "bob") None (Some "/division_abc/subdivision_xyz/"))
                staff staff (ListUsers (path_params "/division_abc/subdivision_xyz/"))
                {["Users" := [user "alice" "/division_abc/subdivision_xyz/";
                              user "bob" "/division_abc/subdivision_xyz/"]]}
                [user "alice" "/division_abc/subdivision_xyz/";
                 user "bob" "/division_abc/subdivision_xyz/"])
      as [_ Hnamed].
    + right. exists "/division_abc/subdivision_xyz/".
      repeat split; try reflexivity; try discriminate.
    + reflexivity.
    + intros _. repeat (constructor; [eexists; reflexivity|]). constructor.
    + rewrite (Hnamed "bob" eq_refl ltac:(discriminate)). vm_compute. reflexivity.
Defined.

End user_facts.

(** * Further properties of the scheduled-action module *)

Module scheduled_action_runs.

Import ec2_asg_scheduled_action.

Section Runs.

Context {W : Type} (client : Client W).

Abbreviation describe_call mp := (DescribeScheduledActions (describe_params mp)).
Abbreviation put_call mp := (PutScheduledUpdateGroupAction (put_params mp)).
Abbreviation delete_call mp := (DeleteScheduledAction (get_common_params mp)).

(** The state=present run, laid out by what the client replies. *)
Lemma present_run (mp : module_params) (w : W) :
  state mp = present ->
  main client true mp (start w) =
  let d1 := client_describe_scheduled_actions client (describe_params mp) w in
  match described d1.1 with
  | Return existing =>
      let p := client_put_scheduled_update_group_action client (put_params mp) d1.2 in
      match p.1 with
      | Ok status =>
          match existing !! "ScheduledUpdateGroupActions" with
          | None =>
              (Raise (TypeError "object of type 'NoneType' has no len()"),
               RunState p.2 [describe_call mp; put_call mp])
          | Some [] =>
              (Exit (exit_json true (Response status)),
               RunState p.2 [describe_call mp; put_call mp])
          | Some (first :: _) =>
              let d2 := client_describe_scheduled_actions client (describe_params mp) p.2 in
              let s3 := RunState d2.2 [describe_call mp; put_call mp; describe_call mp] in
              match described d2.1 with
              | Return refetched =>
                  match refetched !! "ScheduledUpdateGroupActions" with
                  | None =>
                      (Raise (TypeError "'NoneType' object is not subscriptable"), s3)
                  | Some [] => (Raise (IndexError "list index out of range"), s3)
                  | Some (updated :: _) =>
                      (Exit (exit_json (bool_decide (first ≠ updated)) (Response status)), s3)
                  end
              | Exit r => (Exit r, s3)
              | Raise x => (Raise x, s3)
              end
          end
      | Fails e =>
          (Exit (fail_json (str e)), RunState p.2 [describe_call mp; put_call mp])
      | Throws x => (Raise x, RunState p.2 [describe_call mp; put_call mp])
      end
  | Exit r => (Exit r, RunState d1.2 [describe_call mp])
  | Raise x => (Raise x, RunState d1.2 [describe_call mp])
  end.
Proof.
  intros Hstate. unfold main. rewrite Hstate. cbn [negb].
  unfold put_scheduled_update_group_action, bind, start.
  rewrite scheduled_action.describe_scheduled_actions_run. cbn [remote calls app].
  destruct (client_describe_scheduled_actions client (describe_params mp) w)
    as [r1 w1]. cbn [fst snd].
  destruct (described r1) as [existing|r|x]; [|reflexivity..].
  unfold invoke. cbn [remote calls app].
  destruct (client_put_scheduled_update_group_action client (put_params mp) w1)
    as [[status|e|x] w2]; cbn [fst snd]; [|reflexivity..].
  cbn [ret].
  destruct (existing !! "ScheduledUpdateGroupActions") as [[|first others]|];
    [reflexivity| |reflexivity].
  cbn [len ret length Nat.eqb].
  rewrite scheduled_action.describe_scheduled_actions_run. cbn [remote calls app].
  destruct (client_describe_scheduled_actions client (describe_params mp) w2)
    as [r3 w3]. cbn [fst snd].
  destruct (described r3) as [refetched|r|x]; [|reflexivity..].
  destruct (refetched !! "ScheduledUpdateGroupActions") as [[|updated others']|];
    [reflexivity| |reflexivity].
  cbn [item0 ret].
  destruct (bool_decide (first ≠ updated)); reflexivity.
Qed.

(** The state=absent run, laid out by what the client replies. *)
Lemma absent_run (mp : module_params) (w : W) :
  state mp = absent ->
  main client true mp (start w) =
  let d1 := client_describe_scheduled_actions client (describe_params mp) w in
  match described d1.1 with
  | Return existing =>
      match existing !! "ScheduledUpdateGroupActions" with
      | None => (Raise (UnboundLocalError "actions"), RunState d1.2 [describe_call mp])
      | Some [] =>
          (Exit (exit_json false (Actions [])), RunState d1.2 [describe_call mp])
      | Some (_ :: _) =>
          let d := client_delete_scheduled_action client (get_common_params mp) d1.2 in
          let s2 := RunState d.2 [describe_call mp; delete_call mp] in
          match d.1 with
          | Ok deleted => (Exit (exit_json true (Response deleted)), s2)
          | Fails e => (Exit (fail_json (str e)), s2)
          | Throws x => (Raise x, s2)
          end
      end
  | Exit r => (Exit r, RunState d1.2 [describe_call mp])
  | Raise x => (Raise x, RunState d1.2 [describe_call mp])
  end.
Proof.
  intros Hstate. unfold main. rewrite Hstate. cbn [negb].
  unfold delete_scheduled_action, bind, start.
  rewrite scheduled_action.describe_scheduled_actions_run. cbn [remote calls app].
  destruct (client_describe_scheduled_actions client (describe_params mp) w)
    as [r1 w1]. cbn [fst snd].
  destruct (described r1) as [existing|r|x]; [|reflexivity..].
  destruct (existing !! "ScheduledUpdateGroupActions") as [[|first others]|];
    [reflexivity| |reflexivity].
  cbn [length Nat.eqb]. unfold invoke. cbn [remote calls app].
  destruct (client_delete_scheduled_action client (get_common_params mp) w1)
    as [[deleted|e|x] w2]; reflexivity.
Qed.

(** X1. A state=present run issues its calls in one fixed order: the
    describe, then the upsert, then at most one more describe. The upsert is
    left out only when the first describe raised something other than a
    ClientError, and no delete is ever issued. *)
Theorem present_call_sequence (mp : module_params) (w : W) :
  state mp = present ->
  (calls (main client true mp (start w)).2 = [describe_call mp]
   /\ exists x,
        (client_describe_scheduled_actions client (describe_params mp) w).1 = Throws x)
  \/ calls (main client true mp (start w)).2 = [describe_call mp; put_call mp]
  \/ calls (main client true mp (start w)).2
     = [describe_call mp; put_call mp; describe_call mp].
Proof.
  intros Hstate. rewrite (present_run mp w Hstate). cbn zeta.
  destruct (client_describe_scheduled_actions client (describe_params mp) w)
    as [[found|e|x] w1]; cbn [fst snd described];
    [| |left; split; [reflexivity|eexists; reflexivity]].
  all: destruct (client_put_scheduled_update_group_action client (put_params mp) w1)
         as [[status|e'|x] w2]; cbn [fst snd]; [|right; left; reflexivity..].
  all: match goal with
       | |- context [match ?m !! ?k with _ => _ end] =>
           destruct (m !! k) as [[|first others]|]
       end; [right; left; reflexivity| |right; left; reflexivity].
  all: destruct (described _) as [refetched|r|x];
         [destruct (refetched !! "ScheduledUpdateGroupActions") as [[|updated others']|]|..];
         right; right; reflexivity.
Qed.

(** X2. A state=absent run issues the describe and then at most the delete:
    the delete is issued only when the describe call returned at least one
    action, and no upsert is ever issued. *)
Theorem absent_call_sequence (mp : module_params) (w : W) :
  state mp = absent ->
  calls (main client true mp (start w)).2 = [describe_call mp]
  \/ (calls (main client true mp (start w)).2 = [describe_call mp; delete_call mp]
      /\ exists found action others,
           (client_describe_scheduled_actions client (describe_params mp) w).1 = Ok found
           /\ found !! "ScheduledUpdateGroupActions" = Some (action :: others)).
Proof.
  intros Hstate. rewrite (absent_run mp w Hstate). cbn zeta.
  destruct (client_describe_scheduled_actions client (describe_params mp) w)
    as [[found|e|x] w1]; cbn [fst snd described]; [|left; reflexivity..].
  destruct (found !! "ScheduledUpdateGroupActions") as [[|action others]|] eqn:Hfound;
    [left; reflexivity| |left; reflexivity].
  right. split.
  - destruct (client_delete_scheduled_action client (get_common_params mp) w1)
      as [[deleted|e|x] w2]; reflexivity.
  - exists found, action, others. split; [reflexivity|exact Hfound].
Qed.

(** X3. With state=absent, when the describe call finds an action and the
    delete call returns, the module exits with changed=true and the delete's
    response, after exactly the describe and one delete whose request holds
    the group name and the action name (and aws_retry) and nothing else. *)
Theorem absent_deletes_by_identity
  (mp : module_params) (w w1 w2 : W) (found : gmap string (list record))
  (action : record) (others : list record) (deleted : record) :
  state mp = absent ->
  client_describe_scheduled_actions client (describe_params mp) w = (Ok found, w1) ->
  found !! "ScheduledUpdateGroupActions" = Some (action :: others) ->
  client_delete_scheduled_action client (get_common_params mp) w1 = (Ok deleted, w2) ->
  main client true mp (start w)
  = (Exit (exit_json true (Response deleted)),
     RunState w2 [describe_call mp; delete_call mp])
  /\ get_common_params mp
     = {[ "aws_retry" := ArgBool true;
          "AutoScalingGroupName" := of_str (autoscaling_group_name mp);
          "ScheduledActionName" := of_str (scheduled_action_name mp) ]}.
Proof.
  intros Hstate Hd Hsome Hdel. split.
  - rewrite (absent_run mp w Hstate). cbn zeta. rewrite Hd. cbn [fst snd described].
    rewrite Hsome, Hdel. reflexivity.
  - reflexivity.
Qed.

(** X4. A state=absent run looks at nothing but the group name and the
    action name: two playbooks that agree on them run identically, whatever
    their recurrence, capacities and times. *)
Theorem absent_ignores_other_options
  (mp mp' : module_params) (s : run_state W call) :
  state mp = absent -> state mp' = absent ->
  autoscaling_group_name mp = autoscaling_group_name mp' ->
  scheduled_action_name mp = scheduled_action_name mp' ->
  main client true mp s = main client true mp' s.
Proof.
  intros Hstate Hstate' Hgroup Hname.
  assert (get_common_params mp = get_common_params mp') as Hcommon.
  { unfold get_common_params. rewrite Hgroup, Hname. reflexivity. }
  unfold main. rewrite Hstate, Hstate'.
  unfold delete_scheduled_action, describe_scheduled_actions.
  rewrite Hcommon. reflexivity.
Qed.

(** X5. With state=present, when the action existed and the upsert returned
    but the second describe no longer lists the action, the run raises after
    the upsert has been issued: IndexError when the list comes back empty,
    TypeError when the key is missing (which is also what a swallowed
    ClientError of that describe gives). *)
Theorem present_refetch_without_action_raises
  (mp : module_params) (w w1 w2 w3 : W)
  (found refetched : gmap string (list record)) (status pre : record)
  (others : list record) (r3 : reply ClientError (gmap string (list record))) :
  state mp = present ->
  client_describe_scheduled_actions client (describe_params mp) w = (Ok found, w1) ->
  found !! "ScheduledUpdateGroupActions" = Some (pre :: others) ->
  client_put_scheduled_update_group_action client (put_params mp) w1 = (Ok status, w2) ->
  client_describe_scheduled_actions client (describe_params mp) w2 = (r3, w3) ->
  described r3 = Return refetched ->
  (refetched !! "ScheduledUpdateGroupActions" = Some [] ->
   main client true mp (start w)
   = (Raise (IndexError "list index out of range"),
      RunState w3 [describe_call mp; put_call mp; describe_call mp]))
  /\ (refetched !! "ScheduledUpdateGroupActions" = None ->
      main client true mp (start w)
      = (Raise (TypeError "'NoneType' object is not subscriptable"),
         RunState w3 [describe_call mp; put_call mp; describe_call mp])).
Proof.
  intros Hstate Hd1 Hpre Hput Hd2 Hre.
  rewrite (present_run mp w Hstate). cbn zeta.
  rewrite Hd1. cbn [fst snd described]. rewrite Hput. cbn [fst snd].
  rewrite Hpre, Hd2. cbn [fst snd]. rewrite Hre.
  split; intros ->; reflexivity.
Qed.

(** X6. A state=present run reports changed=false only when the first
    describe found an action, the upsert returned, and the first action of
    the second describe is that same record; the results are then the
    upsert's response. *)
Theorem present_unchanged_only_if
  (mp : module_params) (w : W) (results : pyobj) :
  state mp = present ->
  (main client true mp (start w)).1 = Exit (exit_json false results) ->
  exists found w1 status w2 refetched w3 pre others others',
    client_describe_scheduled_actions client (describe_params mp) w = (Ok found, w1)
    /\ found !! "ScheduledUpdateGroupActions" = Some (pre :: others)
    /\ client_put_scheduled_update_group_action client (put_params mp) w1
       = (Ok status, w2)
    /\ client_describe_scheduled_actions client (describe_params mp) w2
       = (Ok refetched, w3)
    /\ refetched !! "ScheduledUpdateGroupActions" = Some (pre :: others')
    /\ results = Response status.
Proof.
  intros Hstate. rewrite (present_run mp w Hstate). cbn zeta.
  destruct (client_describe_scheduled_actions client (describe_params mp) w)
    as [[found|e|x] w1] eqn:Hd1; cbn [fst snd described]; [| |discriminate].
  - destruct (client_put_scheduled_update_group_action client (put_params mp) w1)
      as [[status|e'|x] w2] eqn:Hput; cbn [fst snd]; [|discriminate..].
    destruct (found !! "ScheduledUpdateGroupActions") as [[|pre others]|] eqn:Hpre;
      [discriminate| |discriminate].
    destruct (client_describe_scheduled_actions client (describe_params mp) w2)
      as [[refetched|e'|x] w3] eqn:Hd2; cbn [fst snd described].
    + destruct (refetched !! "ScheduledUpdateGroupActions") as [[|post others']|] eqn:Hpost;
        [discriminate| |discriminate].
      cbn [fst]. intros Hexit. injection Hexit as Hchanged <-.
      apply bool_decide_eq_false in Hchanged.
      destruct (decide (pre = post)) as [<-|Hne]; [|contradiction].
      exists found, w1, status, w2, refetched, w3, pre, others, others'.
      repeat split; assumption.
    + rewrite lookup_empty. discriminate.
    + discriminate.
  - destruct (client_put_scheduled_update_group_action client (put_params mp) w1)
      as [[status|e'|x] w2]; cbn [fst snd]; rewrite ?lookup_empty; discriminate.
Qed.

(** X12. A state=present run reports changed=true only when the describe
    and the upsert both returned and either the describe listed no action,
    or it listed one and the first action of the second describe differs
    from it; the results are then the upsert's response. *)
Theorem present_changed_only_if
  (mp : module_params) (w : W) (results : pyobj) :
  state mp = present ->
  (main client true mp (start w)).1 = Exit (exit_json true results) ->
  exists found w1 status w2,
    client_describe_scheduled_actions client (describe_params mp) w = (Ok found, w1)
    /\ client_put_scheduled_update_group_action client (put_params mp) w1
       = (Ok status, w2)
    /\ results = Response status
    /\ (found !! "ScheduledUpdateGroupActions" = Some []
        \/ exists pre others refetched w3 post others',
             found !! "ScheduledUpdateGroupActions" = Some (pre :: others)
             /\ client_describe_scheduled_actions client (describe_params mp) w2
                = (Ok refetched, w3)
             /\ refetched !! "ScheduledUpdateGroupActions" = Some (post :: others')
             /\ pre <> post).
Proof.
  intros Hstate. rewrite (present_run mp w Hstate). cbn zeta.
  destruct (client_describe_scheduled_actions client (describe_params mp) w)
    as [[found|e|x] w1] eqn:Hd1; cbn [fst snd described]; [| |discriminate].
  - destruct (client_put_scheduled_update_group_action client (put_params mp) w1)
      as [[status|e'|x] w2] eqn:Hput; cbn [fst snd]; [|discriminate..].
    destruct (found !! "ScheduledUpdateGroupActions") as [[|pre others]|] eqn:Hpre;
      [| |discriminate].
    + cbn [fst]. intros Hexit. injection Hexit as <-.
      exists found, w1, status, w2.
      split; [first [reflexivity|assumption]|].
      split; [first [reflexivity|assumption]|].
      split; [reflexivity|].
      left. first [reflexivity|assumption].
    + destruct (client_describe_scheduled_actions client (describe_params mp) w2)
        as [[refetched|e'|x] w3] eqn:Hd2; cbn [fst snd described].
      * destruct (refetched !! "ScheduledUpdateGroupActions") as [[|post others']|] eqn:Hpost;
          [discriminate| |discriminate].
        cbn [fst]. intros Hexit. injection Hexit as Hchanged <-.
        apply bool_decide_eq_true in Hchanged.
        exists found, w1, status, w2.
        split; [first [reflexivity|assumption]|].
        split; [first [reflexivity|assumption]|].
        split; [reflexivity|].
        right. exists pre, others, refetched, w3, post, others'.
        split; [first [reflexivity|assumption]|].
        split; [first [reflexivity|assumption]|].
        split; [first [reflexivity|assumption]|].
        exact Hchanged.
      * rewrite lookup_empty. discriminate.
      * discriminate.
  - destruct (client_put_scheduled_update_group_action client (put_params mp) w1)
      as [[status|e'|x] w2]; cbn [fst snd]; rewrite ?lookup_empty; discriminate.
Qed.

End Runs.

(** ** Runs against the remote services *)

Import Remote.

Lemma present_call_sequence_witness :
  state (example present) = present
  /\ calls (main memory true (example present) (start [stored])).2
     = [DescribeScheduledActions (describe_params (example present));
        PutScheduledUpdateGroupAction (put_params (example present));
        DescribeScheduledActions (describe_params (example present))].
Proof.
  split; [reflexivity|].
  destruct (present_call_sequence memory (example present) [stored] eq_refl)
    as [[H _]|[H|H]]; [vm_compute in H; discriminate H
                      |vm_compute in H; discriminate H
                      |exact H].
Defined.

Lemma absent_call_sequence_witness :
  state (example absent) = absent
  /\ calls (main memory true (example absent) (start [stored])).2
     = [DescribeScheduledActions (describe_params (example absent));
        DeleteScheduledAction (get_common_params (example absent))].
Proof.
  split; [reflexivity|].
  destruct (absent_call_sequence memory (example absent) [stored] eq_refl)
    as [H|[H _]]; [vm_compute in H; discriminate H|exact H].
Defined.

Lemma absent_deletes_by_identity_witness :
  state (example absent) = absent
  /\ main memory true (example absent) (start [stored])
     = (Exit (exit_json true (Response ∅)),
        RunState [] [DescribeScheduledActions (describe_params (example absent));
                     DeleteScheduledAction (get_common_params (example absent))]).
Proof.
  split; [reflexivity|].
  apply (absent_deletes_by_identity memory (example absent) [stored] [stored] []
           {["ScheduledUpdateGroupActions" := [stored]]} stored [] ∅);
    vm_compute; reflexivity.
Defined.

Lemma absent_ignores_other_options_witness :
  main memory true (example absent) (start [stored])
  = main memory true (bare absent) (start [stored]).
Proof.
  apply (absent_ignores_other_options memory (example absent) (bare absent));
    reflexivity.
Defined.

Lemma present_refetch_without_action_raises_witness :
  main (scripted [stored] (Ok {["ScheduledUpdateGroupActions" := []]})) true
       (example present) (start 0)
  = (Raise (IndexError "list index out of range"),
     RunState 2 [DescribeScheduledActions (describe_params (example present));
                 PutScheduledUpdateGroupAction (put_params (example present));
                 DescribeScheduledActions (describe_params (example present))])
  /\ main (scripted [stored] (Fails (access_denied "DescribeScheduledActions"))) true
          (example present) (start 0)
     = (Raise (TypeError "'NoneType' object is not subscriptable"),
        RunState 2 [DescribeScheduledActions (describe_params (example present));
                    PutScheduledUpdateGroupAction (put_params (example present));
                    DescribeScheduledActions (describe_params (example present))]).
Proof.
  split.
  - exact (proj1 (present_refetch_without_action_raises
                    (scripted [stored] (Ok {["ScheduledUpdateGroupActions" := []]}))
                    (example present) 0 1 1 2
                    {["ScheduledUpdateGroupActions" := [stored]]}
                    {["ScheduledUpdateGroupActions" := []]} ∅ stored []
                    (Ok {["ScheduledUpdateGroupActions" := []]})
                    eq_refl eq_refl eq_refl eq_refl eq_refl eq_refl) eq_refl).
  - exact (proj2 (present_refetch_without_action_raises
                    (scripted [stored] (Fails (access_denied "DescribeScheduledActions")))
                    (example present) 0 1 1 2
                    {["ScheduledUpdateGroupActions" := [stored]]}
                    ∅ ∅ stored []
                    (Fails (access_denied "DescribeScheduledActions"))
                    eq_refl eq_refl eq_refl eq_refl eq_refl eq_refl) eq_refl).
Defined.

Lemma present_unchanged_only_if_witness :
  (main memory true (example present) (start [stored])).1
    = Exit (exit_json false (Response ∅))
  /\ exists found w1 status w2 refetched w3 pre others others',
      client_describe_scheduled_actions memory (describe_params (example present)) [stored]
        = (Ok found, w1)
      /\ found !! "ScheduledUpdateGroupActions" = Some (pre :: others)
      /\ client_put_scheduled_update_group_action memory (put_params (example present)) w1
         = (Ok status, w2)
      /\ client_describe_scheduled_actions memory (describe_params (example present)) w2
         = (Ok refetched, w3)
      /\ refetched !! "ScheduledUpdateGroupActions" = Some (pre :: others')
      /\ Response ∅ = Response status.
Proof.
  assert ((main memory true (example present) (start [stored])).1
          = Exit (exit_json false (Response ∅))) as Hrun
    by (vm_compute; reflexivity).
  split; [exact Hrun|].
  exact (present_unchanged_only_if memory (example present) [stored] (Response ∅)
           eq_refl Hrun).
Defined.

Lemma present_changed_only_if_witness :
  (main memory true (example present) (start [])).1
    = Exit (exit_json true (Response ∅))
  /\ exists found w1 status w2,
      client_describe_scheduled_actions memory (describe_params (example present)) []
        = (Ok found, w1)
      /\ client_put_scheduled_update_group_action memory (put_params (example present)) w1
         = (Ok status, w2)
      /\ Response ∅ = Response status
      /\ (found !! "ScheduledUpdateGroupActions" = Some []
          \/ exists pre others refetched w3 post others',
               found !! "ScheduledUpdateGroupActions" = Some (pre :: others)
               /\ client_describe_scheduled_actions memory
                    (describe_params (example present)) w2 = (Ok refetched, w3)
               /\ refetched !! "ScheduledUpdateGroupActions" = Some (post :: others')
               /\ pre <> post).
Proof.
  assert ((main memory true (example present) (start [])).1
          = Exit (exit_json true (Response ∅))) as Hrun
    by (vm_compute; reflexivity).
  split; [exact Hrun|].
  exact (present_changed_only_if memory (example present) [] (Response ∅)
           eq_refl Hrun).
Defined.

End scheduled_action_runs.

(** * Further properties of the IAM user lookup *)

Module user_facts_runs.

Import iam_user_facts.

Lemma append_empty (m : string) : "" +:+ m +:+ "" = m.
Proof.
  change (m +:+ "" = m). induction m as [|a m IH]; [reflexivity|].
  change (String a (m +:+ "") = String a m). rewrite IH. reflexivity.
Qed.

Section Runs.

Context {W : Type} (connection : Client W).
Variable camel_dict_to_snake_dict : record -> record.

(** The [get_user] request: [MaxItems] with the [UserName] added. *)
Abbreviation user_params n :=
  (<["UserName" := ArgStr n]> ({["MaxItems" := ArgInt 1000]} : kwargs)).

(** The comprehension touches neither the remote nor the call log. *)
Lemma narrow_state (n : string) (users : list record) (s : run_state W call) :
  (narrow n users s).2 = s.
Proof.
  induction users as [|user users IH]; [reflexivity|].
  cbn [narrow]. unfold bind, getitem.
  destruct (user !! "UserName") as [x|]; [|reflexivity].
  cbn [ret]. destruct (narrow n users s) as [[kept|r|x'] s'] eqn:Hrest;
    cbn [snd] in IH; subst s'; reflexivity.
Qed.

Lemma narrow_if_state (o : option string) (users : list record) (s : run_state W call) :
  (narrow_if o users s).2 = s.
Proof.
  unfold narrow_if. destruct o as [n|]; [|reflexivity].
  destruct (truthy (Some n)); [apply narrow_state|reflexivity].
Qed.

(** [list_iam_users] with a group and a non-empty path: one [get_group]. *)
Lemma group_run (o : option string) (g pth : string) (w : W) :
  g <> "" -> pth <> "" ->
  list_iam_users connection camel_dict_to_snake_dict
    {| name := o; group := Some g; path := Some pth |} (start w)
  = (listed camel_dict_to_snake_dict "Failed while listing IAM groups " o
       (client_get_group connection (group_params g) w).1
       (RunState (client_get_group connection (group_params g) w).2
                 [GetGroup (group_params g)]),
     RunState (client_get_group connection (group_params g) w).2
              [GetGroup (group_params g)]).
Proof.
  intros Hg Hp. unfold list_iam_users, bind. cbn [name group path].
  rewrite (user_facts.truthy_Some g Hg), (user_facts.truthy_Some pth Hp).
  rewrite andb_false_r. cbn [negb andb ret of_str].
  unfold invoke, start. cbn [remote calls app]. fold (group_params g).
  destruct (client_get_group connection (group_params g) w) as [[response|e|x] w1];
    cbn [fst snd listed]; [| |reflexivity].
  - unfold getitem. destruct (response !! "Users") as [users|]; [|reflexivity].
    cbn [ret].
    pose proof (narrow_if_state o users (RunState w1 [GetGroup (group_params g)])) as Hs.
    destruct (narrow_if o users (RunState w1 [GetGroup (group_params g)]))
      as [[kept|r|x] s']; cbn [fst snd] in *; subst s'; reflexivity.
  - destruct e; reflexivity.
Qed.

(** [list_iam_users] with a non-empty path and no group: one [list_users]. *)
Lemma path_run (o grp : option string) (pth : string) (w : W) :
  truthy grp = false -> pth <> "" ->
  list_iam_users connection camel_dict_to_snake_dict
    {| name := o; group := grp; path := Some pth |} (start w)
  = (listed camel_dict_to_snake_dict "Failed while listing IAM users " o
       (client_list_users connection (path_params pth) w).1
       (RunState (client_list_users connection (path_params pth) w).2
                 [ListUsers (path_params pth)]),
     RunState (client_list_users connection (path_params pth) w).2
              [ListUsers (path_params pth)]).
Proof.
  intros Hg Hp. unfold list_iam_users, bind. cbn [name group path].
  rewrite Hg, (user_facts.truthy_Some pth Hp).
  rewrite andb_false_r. cbn [negb andb ret of_str].
  unfold invoke, start. cbn [remote calls app]. fold (path_params pth).
  destruct (client_list_users connection (path_params pth) w) as [[response|e|x] w1];
    cbn [fst snd listed]; [| |reflexivity].
  - unfold getitem. destruct (response !! "Users") as [users|]; [|reflexivity].
    cbn [ret].
    pose proof (narrow_if_state o users (RunState w1 [ListUsers (path_params pth)])) as Hs.
    destruct (narrow_if o users (RunState w1 [ListUsers (path_params pth)]))
      as [[kept|r|x] s']; cbn [fst snd] in *; subst s'; reflexivity.
  - destruct e; reflexivity.
Qed.

(** [list_iam_users] with a name, an empty path and no group: one [get_user]. *)
Lemma name_run (n : string) (grp pth : option string) (w : W) :
  n <> "" -> truthy grp = false -> truthy pth = false ->
  list_iam_users connection camel_dict_to_snake_dict
    {| name := Some n; group := grp; path := pth |} (start w)
  = (match (client_get_user connection (user_params n) w).1 with
     | Ok response =>
         match response !! "User" with
         | Some user => Exit (exit_json [camel_dict_to_snake_dict user])
         | None => Raise (KeyError "User")
         end
     | Fails (ClientError message response) =>
         Exit (fail_json message (camel_dict_to_snake_dict response))
     | Fails (ParamValidationError _) => Raise (AttributeError "response")
     | Throws x => Raise x
     end,
     RunState (client_get_user connection (user_params n) w).2
              [GetUser (user_params n)]).
Proof.
  intros Hn Hg Hp. unfold list_iam_users, bind. cbn [name group path].
  rewrite Hg, Hp, (user_facts.truthy_Some n Hn). cbn [negb andb ret of_str].
  unfold invoke, start. cbn [remote calls app].
  destruct (client_get_user connection (user_params n) w) as [[response|e|x] w1];
    cbn [fst snd]; [| |reflexivity].
  - unfold getitem. destruct (response !! "User") as [user|]; reflexivity.
  - destruct e as [message response|message]; [|reflexivity].
    cbn [handler exit]. rewrite append_empty. reflexivity.
Qed.

(** [list_iam_users] with nothing to look for: no call, nothing reported. *)
Lemma idle_run (o grp pth : option string) (w : W) :
  truthy o = false -> truthy grp = false -> truthy pth = false ->
  list_iam_users connection camel_dict_to_snake_dict
    {| name := o; group := grp; path := pth |} (start w)
  = (Exit (exit_json []), RunState w []).
Proof.
  intros Ho Hg Hp. unfold list_iam_users, bind. cbn [name group path].
  rewrite Ho, Hg, Hp. reflexivity.
Qed.

(** The run of [main] once the module object exists. *)
Lemma main_run (p : supplied) (w : W) :
  (supplied_group p = None \/ supplied_path p = None) ->
  main connection camel_dict_to_snake_dict true p (start w)
  = list_iam_users connection camel_dict_to_snake_dict
      {| name := supplied_name p; group := supplied_group p;
         path := Some (default "/" (supplied_path p)) |} (start w).
Proof.
  intros Hone. unfold main, bind, AnsibleModule.
  destruct (supplied_group p), (supplied_path p); try reflexivity.
  destruct Hone; discriminate.
Qed.

(** X7. A run issues at most one IAM call, and the parameters alone decide
    which, whatever the remote replies: none when group and path are both
    given; [get_group] for a non-empty group; otherwise [list_users] under
    the path (['/'] by default) when it is non-empty; otherwise [get_user]
    for a non-empty name; otherwise none. Every request carries
    MaxItems=1000 next to its one filter. *)
Theorem one_call_decided_by_parameters (p : supplied) (w : W) :
  calls (main connection camel_dict_to_snake_dict true p (start w)).2
  = match supplied_group p, supplied_path p with
    | Some _, Some _ => []
    | Some g, None =>
        if truthy (Some g) then [GetGroup (group_params g)]
        else [ListUsers (path_params "/")]
    | None, None => [ListUsers (path_params "/")]
    | None, Some prefix =>
        if truthy (Some prefix) then [ListUsers (path_params prefix)]
        else match supplied_name p with
             | Some n => if truthy (Some n) then [GetUser (user_params n)] else []
             | None => []
             end
    end.
Proof.
  destruct p as [o [g|] [prefix|]].
  - reflexivity.
  - rewrite main_run by (right; reflexivity). cbn [supplied_name supplied_group supplied_path default from_option id].
    destruct (truthy (Some g)) eqn:Hg.
    + assert (g <> "") as Hne by (intros ->; discriminate Hg).
      rewrite (group_run o g "/" w Hne) by discriminate. reflexivity.
    + rewrite (path_run o (Some g) "/" w Hg) by discriminate. reflexivity.
  - rewrite main_run by (left; reflexivity). cbn [supplied_name supplied_group supplied_path default from_option id].
    destruct (truthy (Some prefix)) eqn:Hp.
    + assert (prefix <> "") as Hne by (intros ->; discriminate Hp).
      rewrite (path_run o None prefix w eq_refl Hne). reflexivity.
    + destruct o as [n|].
      * destruct (truthy (Some n)) eqn:Hn.
        -- assert (n <> "") as Hne by (intros ->; discriminate Hn).
           rewrite (name_run n None (Some prefix) w Hne eq_refl Hp). reflexivity.
        -- rewrite (idle_run (Some n) None (Some prefix) w Hn eq_refl Hp). reflexivity.
      * rewrite (idle_run None None (Some prefix) w eq_refl eq_refl Hp). reflexivity.
  - rewrite main_run by (left; reflexivity). cbn [supplied_name supplied_group supplied_path default from_option id].
    rewrite (path_run o None "/" w eq_refl) by discriminate. reflexivity.
Qed.

(** X8. With no parameter at all the module lists the users under the
    default path ['/'] and reports every fetched user, in the order
    fetched. *)
Theorem no_parameter_lists_everything
  (p : supplied) (w w1 : W)
  (response : gmap string (list record)) (users : list record) :
  supplied_name p = None -> supplied_group p = None -> supplied_path p = None ->
  client_list_users connection (path_params "/") w = (Ok response, w1) ->
  response !! "Users" = Some users ->
  main connection camel_dict_to_snake_dict true p (start w)
  = (Exit (exit_json (camel_dict_to_snake_dict <$> users)),
     RunState w1 [ListUsers (path_params "/")]).
Proof.
  intros Hname Hgroup Hpath Hcall Husers.
  rewrite main_run by (left; exact Hgroup). rewrite Hname, Hgroup, Hpath.
  cbn [default from_option id].
  rewrite (path_run None None "/" w eq_refl) by discriminate.
  rewrite Hcall. cbn [fst snd listed]. rewrite Husers. reflexivity.
Qed.

(** X9. A name given with an empty path (and no group) is looked up with
    [get_user], the request holding UserName and MaxItems=1000: the user the
    call returns is the one user reported, and a ClientError of the call
    (no such user, say) ends the invocation with [fail_json] whose msg is
    the error's message. *)
Theorem name_with_empty_path_gets_user
  (p : supplied) (w w1 : W) (n : string)
  (r : reply boto_error (gmap string record)) :
  supplied_name p = Some n -> n <> "" ->
  supplied_group p = None -> supplied_path p = Some "" ->
  client_get_user connection (user_params n) w = (r, w1) ->
  (forall response user,
     r = Ok response -> response !! "User" = Some user ->
     main connection camel_dict_to_snake_dict true p (start w)
     = (Exit (exit_json [camel_dict_to_snake_dict user]),
        RunState w1 [GetUser (user_params n)]))
  /\ (forall message response,
       r = Fails (ClientError message response) ->
       main connection camel_dict_to_snake_dict true p (start w)
       = (Exit (fail_json message (camel_dict_to_snake_dict response)),
          RunState w1 [GetUser (user_params n)])).
Proof.
  intros Hname Hn Hgroup Hpath Hcall.
  rewrite main_run by (left; exact Hgroup). rewrite Hname, Hgroup, Hpath.
  cbn [default from_option id].
  rewrite (name_run n None (Some "") w Hn eq_refl eq_refl), Hcall. cbn [fst snd].
  split.
  - intros response user -> Huser. rewrite Huser. reflexivity.
  - intros message response ->. reflexivity.
Qed.

(** X10. A ClientError of the listing call ends the invocation with
    [fail_json]: the msg is the error's message between "Failed while
    listing IAM groups " (for [get_group]) or "Failed while listing IAM
    users " (for [list_users]) and a closing space, and the error's response
    goes along through [camel_dict_to_snake_dict]. No user is reported. *)
Theorem listing_client_error_fails
  (p : supplied) (w w1 : W) (c : call) (prefix message : string) (response : record) :
  ((exists g, supplied_group p = Some g /\ g <> "" /\ supplied_path p = None
              /\ c = GetGroup (group_params g)
              /\ prefix = "Failed while listing IAM groups "
              /\ client_get_group connection (group_params g) w
                 = (Fails (ClientError message response), w1))
   \/ (exists pth, supplied_path p = Some pth /\ pth <> ""
                   /\ supplied_group p = None
                   /\ c = ListUsers (path_params pth)
                   /\ prefix = "Failed while listing IAM users "
                   /\ client_list_users connection (path_params pth) w
                      = (Fails (ClientError message response), w1))) ->
  main connection camel_dict_to_snake_dict true p (start w)
  = (Exit (fail_json (prefix +:+ message +:+ " ")
                     (camel_dict_to_snake_dict response)),
     RunState w1 [c]).
Proof.
  intros [(g & Hgroup & Hg & Hpath & -> & -> & Hcall)
         |(pth & Hpath & Hp & Hgroup & -> & -> & Hcall)].
  - rewrite main_run by (right; exact Hpath). rewrite Hgroup, Hpath.
    cbn [default from_option id].
    rewrite (group_run (supplied_name p) g "/" w Hg) by discriminate.
    rewrite Hcall. reflexivity.
  - rewrite main_run by (left; exact Hgroup). rewrite Hgroup, Hpath.
    cbn [default from_option id].
    rewrite (path_run (supplied_name p) None pth w eq_refl Hp).
    rewrite Hcall. reflexivity.
Qed.

Lemma narrow_missing_name (n : string) (before after : list record) (user : record)
    (s : run_state W call) :
  Forall (fun u => is_Some (u !! "UserName")) before ->
  user !! "UserName" = None ->
  narrow n (before ++ user :: after)%list s = (Raise (KeyError "UserName"), s).
Proof.
  intros Hbefore Huser. induction Hbefore as [|u before [x Hx] _ IH].
  - cbn [app narrow]. unfold bind, getitem. rewrite Huser. reflexivity.
  - cbn [app narrow]. unfold bind, getitem. rewrite Hx. cbn [ret]. rewrite IH. reflexivity.
Qed.

(** X11. Under a name filter, a fetched user without a UserName makes the
    run raise KeyError: the comprehension reads user['UserName'] of every
    fetched user, outside any try block. *)
Theorem name_filter_needs_user_names
  (p : supplied) (w w1 : W) (n : string)
  (response : gmap string (list record)) (before after : list record) (user : record) :
  supplied_name p = Some n -> n <> "" ->
  supplied_group p = None -> supplied_path p = None ->
  client_list_users connection (path_params "/") w = (Ok response, w1) ->
  response !! "Users" = Some (before ++ user :: after)%list ->
  Forall (fun u => is_Some (u !! "UserName")) before ->
  user !! "UserName" = None ->
  main connection camel_dict_to_snake_dict true p (start w)
  = (Raise (KeyError "UserName"), RunState w1 [ListUsers (path_params "/")]).
Proof.
  intros Hname Hn Hgroup Hpath Hcall Husers Hbefore Huser.
  rewrite main_run by (left; exact Hgroup). rewrite Hname, Hgroup, Hpath.
  cbn [default from_option id].
  rewrite (path_run (Some n) None "/" w eq_refl) by discriminate.
  rewrite Hcall. cbn [fst snd listed]. rewrite Husers.
  unfold narrow_if. rewrite (user_facts.truthy_Some n Hn).
  rewrite (narrow_missing_name n before after user _ Hbefore Huser). reflexivity.
Qed.

End Runs.

(** ** Runs against the IAM service *)

Import Remote.

Lemma no_parameter_lists_everything_witness :
  main directory snake true (query None None None) (start staff)
  = (Exit (exit_json (snake <$> List.map fst staff)),
     RunState staff [ListUsers (path_params "/")]).
Proof.
  apply (no_parameter_lists_everything directory snake (query None None None)
           staff staff {["Users" := List.map fst staff]} (List.map fst staff));
    [reflexivity | reflexivity | reflexivity | vm_compute; reflexivity | reflexivity].
Defined.

Lemma name_with_empty_path_gets_user_witness :
  main directory snake true (query (Some "test") None (Some "")) (start staff)
    = (Exit (exit_json [snake (user "test" "/")]),
       RunState staff [GetUser (<["UserName" := ArgStr "test"]> {["MaxItems" := ArgInt 1000]})])
  /\ main directory snake true (query (Some "nobody") None (Some "")) (start staff)
     = (Exit (fail_json "The user with name nobody cannot be found."
                        (snake {["Code" := AStr "NoSuchEntity"]})),
        RunState staff [GetUser (<["UserName" := ArgStr "nobody"]> {["MaxItems" := ArgInt 1000]})]).
Proof.
  split.
  - assert ("test" <> "") as Hne by discriminate.
    exact (proj1 (name_with_empty_path_gets_user directory snake
                    (query (Some "test") None (Some "")) staff staff "test"
                    (Ok {["User" := user "test" "/"]})
                    eq_refl Hne eq_refl eq_refl eq_refl)
             {["User" := user "test" "/"]} (user "test" "/") eq_refl eq_refl).
  - assert ("nobody" <> "") as Hne by discriminate.
    exact (proj2 (name_with_empty_path_gets_user directory snake
                    (query (Some "nobody") None (Some "")) staff staff "nobody"
                    (Fails (no_such_entity "nobody"))
                    eq_refl Hne eq_refl eq_refl eq_refl)
             "The user with name nobody cannot be found."
             {["Code" := AStr "NoSuchEntity"]} eq_refl).
Defined.

Lemma listing_client_error_fails_witness :
  main forbidden snake true (query None (Some "dev") None) (start tt)
    = (Exit (fail_json
               ("Failed while listing IAM groups "
                +:+ "User is not authorized to perform this operation" +:+ " ")
               (snake {["Code" := AStr "AccessDenied"]})),
       RunState tt [GetGroup (group_params "dev")])
  /\ main forbidden snake true (query None None (Some "/dev/")) (start tt)
     = (Exit (fail_json
                ("Failed while listing IAM users "
                 +:+ "User is not authorized to perform this operation" +:+ " ")
                (snake {["Code" := AStr "AccessDenied"]})),
        RunState tt [ListUsers (path_params "/dev/")]).
Proof.
  split.
  - apply (listing_client_error_fails forbidden snake (query None (Some "dev") None)
             tt tt (GetGroup (group_params "dev"))).
    left. exists "dev". repeat split; try reflexivity; discriminate.
  - apply (listing_client_error_fails forbidden snake (query None None (Some "/dev/"))
             tt tt (ListUsers (path_params "/dev/"))).
    right. exists "/dev/". repeat split; try reflexivity; discriminate.
Defined.

Lemma name_filter_needs_user_names_witness :
  main directory snake true (query (Some "test") None None)
       (start [(user "test" "/", []); ({["Path" := AStr "/"]}, [])])
  = (Raise (KeyError "UserName"),
     RunState [(user "test" "/", []); ({["Path" := AStr "/"]}, [])]
              [ListUsers (path_params "/")]).
Proof.
  apply (name_filter_needs_user_names directory snake (query (Some "test") None None)
           [(user "test" "/", []); ({["Path" := AStr "/"]}, [])]
           [(user "test" "/", []); ({["Path" := AStr "/"]}, [])]
           "test"
           {["Users" := [user "test" "/"; {["Path" := AStr "/"]}]]}
           [user "test" "/"] [] {["Path" := AStr "/"]});
    [reflexivity | discriminate | reflexivity | reflexivity
    | vm_compute; reflexivity | reflexivity
    | repeat (constructor; [eexists; reflexivity|]); constructor
    | reflexivity].
Defined.

End user_facts_runs.
